(** * Phase-comparison analytics of the SEO dashboard (src/app.py)

    A shallow embedding of the data transformations of [app.py]: the phase
    aggregator [calculate_phase_metrics], the query delta builder
    ([aggregate_queries], the outer merge and the delta columns), the tier
    classifier [categorize_tier_enhanced] and the strategy scorecard
    ([true_wins_df], [risky_df], [ineffective_df], the magnitude check and
    [categorize_outcome]).

    Numbers.  Clicks and impressions are integers ([Z]).  Positions and their
    deltas are rationals ([Q]): a mean of observed positions, computed
    exactly.  The click-through rates are quotients of two columns, and
    pandas does not raise on a zero denominator: it yields [nan] for [0/0]
    and [inf] for [x/0]; these quotients live in [fnum], the rationals
    extended with the three special values.  Rounding of binary floating
    point is not modelled there.  The rate percentages of the scorecard and
    of the tier summary are binary64 numbers ([PrimFloat.float]), computed
    with the operations of the code. *)

From Stdlib Require Import ZArith QArith Qabs Lqa Lia List Bool.
From Stdlib Require Import Sorted Permutation Qminmax.
From Stdlib Require PrimFloat.
From stdpp Require Import gmap strings list fin_maps.

Local Open Scope Q_scope.

(** ** Extended rationals: the values of a pandas float column *)

Module Num.

Inductive fnum : Type :=
| Fin (q : Q)
| PInf
| NInf
| NaN.

(** [Clicks / Impressions] on two integer-valued columns. *)
Definition div (a b : Z) : fnum :=
  if (b =? 0)%Z then
    if (0 <? a)%Z then PInf
    else if (a <? 0)%Z then NInf
    else NaN
  else Fin (inject_Z a / inject_Z b).

(** [x * 100] *)
Definition mul (x : fnum) (c : Q) : fnum :=
  match x with
  | Fin q => Fin (q * c)
  | PInf => if Qle_bool c 0 then (if Qeq_bool c 0 then NaN else NInf) else PInf
  | NInf => if Qle_bool c 0 then (if Qeq_bool c 0 then NaN else PInf) else NInf
  | NaN => NaN
  end.

(** [Series.fillna(0)] on one cell *)
Definition fillna (x : fnum) (d : Q) : fnum :=
  match x with
  | NaN => Fin d
  | _ => x
  end.

(** [x - y] *)
Definition sub (x y : fnum) : fnum :=
  match x, y with
  | NaN, _ | _, NaN => NaN
  | Fin a, Fin b => Fin (a - b)
  | Fin _, PInf => NInf
  | Fin _, NInf => PInf
  | PInf, PInf => NaN
  | PInf, _ => PInf
  | NInf, NInf => NaN
  | NInf, _ => NInf
  end.

(** [-x] *)
Definition opp (x : fnum) : fnum :=
  match x with
  | Fin a => Fin (- a)
  | PInf => NInf
  | NInf => PInf
  | NaN => NaN
  end.

(** [x > c]; every comparison with [nan] is false. *)
Definition gtb (x : fnum) (c : Q) : bool :=
  match x with
  | Fin a => negb (Qle_bool a c)
  | PInf => true
  | NInf => false
  | NaN => false
  end.

Definition is_finite (x : fnum) : bool :=
  match x with
  | Fin _ => true
  | _ => false
  end.

(** Equality of cells: rationals up to [Qeq], special values by name. *)
Definition equiv (x y : fnum) : Prop :=
  match x, y with
  | Fin a, Fin b => a == b
  | PInf, PInf => True
  | NInf, NInf => True
  | NaN, NaN => True
  | _, _ => False
  end.

End Num.

Abbreviation fnum := Num.fnum.

(** Boolean comparisons on [Q], as the source writes them. *)
Definition Qltb (x y : Q) : bool := negb (Qle_bool y x).
Definition Qgtb (x y : Q) : bool := Qltb y x.
Definition Qgeb (x y : Q) : bool := Qle_bool y x.

(** ** Data model *)

(** One row of the [Top_Queries] fact table, restricted to the selected
    domain ([df_queries_all]). *)
Record QueryMetricRow : Type := {
  Phase_id : Z;
  Top_Queries : string;
  Clicks : Z;
  Impressions : Z;
  Position : Q
}.

(** One row of the [GSC] fact table of the selected domain ([domain_gsc]). *)
Record DailyMetricRow : Type := {
  d_Phase_id : Z;
  d_Clicks : Z;
  d_Impressions : Z;
  d_Position : Q
}.

(** The dictionary returned by [calculate_phase_metrics]. *)
Record PhaseSummary : Type := {
  s_Phase_id : Z;
  s_Clicks : Z;
  s_Impressions : Z;
  s_Position : fnum;
  s_CTR : fnum
}.

(** One group of [groupby('Top_Queries').agg(sum, sum, mean)]. *)
Record QueryAgg : Type := {
  agg_Clicks : Z;
  agg_Impressions : Z;
  agg_Position : Q
}.

(** One row of the merged frame with its derived columns. *)
Record QueryComparisonRow : Type := {
  Clicks_A : Z;
  Impressions_A : Z;
  Position_A : Q;
  Clicks_B : Z;
  Impressions_B : Z;
  Position_B : Q;
  Click_Delta : Z;
  Imp_Delta : Z;
  CTR_A : fnum;
  CTR_B : fnum;
  CTR_Delta : fnum;
  Pos_Delta : Q
}.

(** ** Phase aggregator *)

Definition Zsum (l : list Z) : Z := fold_right Z.add 0%Z l.
Definition Qsum (l : list Q) : Q := fold_right Qplus 0 l.

(** [Series.mean()]: [nan] on an empty series. *)
Definition series_mean (l : list Q) : fnum :=
  match l with
  | [] => Num.NaN
  | _ :: _ => Num.Fin (Qsum l / inject_Z (Z.of_nat (length l)))
  end.

Definition calculate_phase_metrics (phase_id : Z) (df : list DailyMetricRow)
  : PhaseSummary :=
  let df_phase := List.filter (fun r => (d_Phase_id r =? phase_id)%Z) df in
  let total_clicks := Zsum (map d_Clicks df_phase) in
  let total_impressions := Zsum (map d_Impressions df_phase) in
  let avg_position := series_mean (map d_Position df_phase) in
  let avg_ctr :=
    if (0 <? total_impressions)%Z
    then Num.mul (Num.div total_clicks total_impressions) 100
    else Num.Fin 0 in
  {| s_Phase_id := phase_id;
     s_Clicks := total_clicks;
     s_Impressions := total_impressions;
     s_Position := avg_position;
     s_CTR := avg_ctr |}.

(** ** Query delta builder *)

(** [groupby('Top_Queries')]: the rows of every query text, in table order. *)
Fixpoint groupby (rows : list QueryMetricRow)
  : gmap string (list QueryMetricRow) :=
  match rows with
  | [] => ∅
  | r :: rest =>
      let g := groupby rest in
      <[Top_Queries r := r :: default [] (g !! Top_Queries r)]> g
  end.

(** The mean of a group; a group of [groupby] is never empty
    (lemma [groupby_lookup]), so this is [series_mean] without its
    [nan] case (lemma [series_mean_group]). *)
Definition group_mean (l : list Q) : Q :=
  Qsum l / inject_Z (Z.of_nat (length l)).

(** [.agg({'Clicks': 'sum', 'Impressions': 'sum', 'Position': 'mean'})] *)
Definition agg (g : list QueryMetricRow) : QueryAgg :=
  {| agg_Clicks := Zsum (map Clicks g);
     agg_Impressions := Zsum (map Impressions g);
     agg_Position := group_mean (map Position g) |}.

Definition aggregate_queries (phase_id : Z) (df_q : list QueryMetricRow)
  : gmap string QueryAgg :=
  let df_phase := List.filter (fun r => (Phase_id r =? phase_id)%Z) df_q in
  agg <$> groupby df_phase.

(** What [fillna(0)] leaves on the side a query is missing from. *)
Definition zero_agg : QueryAgg :=
  {| agg_Clicks := 0; agg_Impressions := 0; agg_Position := 0 |}.

(** [pd.merge(a, b, on='Top_Queries', how='outer').fillna(0)] *)
Definition merge_outer (a b : gmap string QueryAgg)
  : gmap string (QueryAgg * QueryAgg) :=
  merge (fun oa ob =>
           match oa, ob with
           | None, None => None
           | _, _ => Some (default zero_agg oa, default zero_agg ob)
           end) a b.

Definition MAX_RANK : Q := 100.

(** [Series.replace(0, MAX_RANK)] on one cell *)
Definition replace_zero (x : Q) : Q :=
  if Qeq_bool x 0 then MAX_RANK else x.

(** [(Clicks / Impressions * 100).fillna(0)] on one row *)
Definition ctr_column (clicks impressions : Z) : fnum :=
  Num.fillna (Num.mul (Num.div clicks impressions) 100) 0.

(** The delta columns added to one merged row. *)
Definition delta_columns (p : QueryAgg * QueryAgg) : QueryComparisonRow :=
  let a := p.1 in
  let b := p.2 in
  let ctr_a := ctr_column (agg_Clicks a) (agg_Impressions a) in
  let ctr_b := ctr_column (agg_Clicks b) (agg_Impressions b) in
  let pos_a_calc := replace_zero (agg_Position a) in
  let pos_b_calc := replace_zero (agg_Position b) in
  {| Clicks_A := agg_Clicks a;
     Impressions_A := agg_Impressions a;
     Position_A := agg_Position a;
     Clicks_B := agg_Clicks b;
     Impressions_B := agg_Impressions b;
     Position_B := agg_Position b;
     Click_Delta := (agg_Clicks b - agg_Clicks a)%Z;
     Imp_Delta := (agg_Impressions b - agg_Impressions a)%Z;
     CTR_A := ctr_a;
     CTR_B := ctr_b;
     CTR_Delta := Num.sub ctr_b ctr_a;
     Pos_Delta := pos_b_calc - pos_a_calc |}.

(** [df_merged] of the comparison tab, keyed by query text.  Its columns are
    named after the phase ([Clicks_{phase_a}], ...): when both phases are
    the same the merge renames the clashing columns and the first column
    access raises, which is the [None] here. *)
Definition compareQueries (phase_a phase_b : Z) (df_q : list QueryMetricRow)
  : option (gmap string QueryComparisonRow) :=
  if (phase_a =? phase_b)%Z then None
  else Some (delta_columns <$>
               merge_outer (aggregate_queries phase_a df_q)
                           (aggregate_queries phase_b df_q)).

(** [st_merged] of the strategy tab: the same frame with the fixed suffixes
    [_A] and [_B], so it exists for every pair of phases. *)
Definition st_merged (st_phase_a st_phase_b : Z) (df_q : list QueryMetricRow)
  : gmap string QueryComparisonRow :=
  delta_columns <$>
    merge_outer (aggregate_queries st_phase_a df_q)
                (aggregate_queries st_phase_b df_q).

(** ** Tier classifier *)

Inductive TierLabel : Type :=
| Tier_S_New_Rank
| Tier_Spp_Top_3_Win
| Tier_Sp_Jump_10
| Tier_A_Top_10_Solid
| Tier_B_General_Jump
| Decliner_S_Crash_Lost
| Decliner_A_Top_10_Drop
| Decliner_B_General_Drop
| No_Change.

(** The strings the source returns. *)
Definition tier_text (t : TierLabel) : string :=
  match t with
  | Tier_S_New_Rank => "Tier S (New Rank)"
  | Tier_Spp_Top_3_Win => "Tier S++ (Top 3 Win)"
  | Tier_Sp_Jump_10 => "Tier S+ (Jump 10+)"
  | Tier_A_Top_10_Solid => "Tier A (Top 10 Solid)"
  | Tier_B_General_Jump => "Tier B (General Jump)"
  | Decliner_S_Crash_Lost => "Decliner S (Crash/Lost)"
  | Decliner_A_Top_10_Drop => "Decliner A (Top 10 Drop)"
  | Decliner_B_General_Drop => "Decliner B (General Drop)"
  | No_Change => "No Change"
  end.

(** The rows kept in [tier_analysis_df]. *)
Definition tier_prefilter (row : QueryComparisonRow) : bool :=
  Qgtb (Position_A row) 0 || Qgtb (Position_B row) 0.

Definition categorize_tier_enhanced (row : QueryComparisonRow) : TierLabel :=
  let pos_a := Position_A row in
  let pos_b := Position_B row in
  let delta := Pos_Delta row in
  if Qeq_bool pos_a 0 && Qgtb pos_b 0 then Tier_S_New_Rank
  else if Qgtb pos_b 0 && Qle_bool pos_b 3 && Qgtb pos_a 3
       then Tier_Spp_Top_3_Win
  else if Qle_bool delta (-10) then Tier_Sp_Jump_10
  else if Qgtb pos_b 0 && Qle_bool pos_b 10 && Qle_bool delta (-3)
       then Tier_A_Top_10_Solid
  else if Qltb delta 0 then Tier_B_General_Jump
  else if Qgeb delta 10 then Decliner_S_Crash_Lost
  else if Qle_bool pos_a 10 && Qgeb delta 3 then Decliner_A_Top_10_Drop
  else if Qgtb delta 0 then Decliner_B_General_Drop
  else No_Change.

(** ** Strategy scorecard *)

(** The rows of [st_merged] as a frame. *)
Definition frame (m : gmap string QueryComparisonRow)
  : list QueryComparisonRow :=
  (map_to_list m).*2.

(** [(Impressions_A > 0) | (Impressions_B > 0)] *)
Definition st_population (row : QueryComparisonRow) : bool :=
  (0 <? Impressions_A row)%Z || (0 <? Impressions_B row)%Z.

Definition st_analysis_df (st : list QueryComparisonRow)
  : list QueryComparisonRow :=
  List.filter st_population st.

(** Criteria 1: [(Pos_Delta < 0) & (Imp_Delta > 0)] *)
Definition is_true_win (row : QueryComparisonRow) : bool :=
  Qltb (Pos_Delta row) 0 && (0 <? Imp_Delta row)%Z.

(** Criteria 2: [(CTR_Delta > 3) & (Pos_Delta > 0)] *)
Definition is_risky (row : QueryComparisonRow) : bool :=
  Num.gtb (CTR_Delta row) 3 && Qgtb (Pos_Delta row) 0.

(** Criteria 3: [(CTR_Delta > 3) & (Pos_Delta == 0)] *)
Definition is_ineffective (row : QueryComparisonRow) : bool :=
  Num.gtb (CTR_Delta row) 3 && Qeq_bool (Pos_Delta row) 0.

Definition true_wins_df (df : list QueryComparisonRow) :=
  List.filter is_true_win df.
Definition risky_df (df : list QueryComparisonRow) :=
  List.filter is_risky df.
Definition ineffective_df (df : list QueryComparisonRow) :=
  List.filter is_ineffective df.

Definition Qnat (n : nat) : Q := inject_Z (Z.of_nat n).

Section Rates.

Import PrimFloat.

(** [float(n)] for a count of rows; exact below 2^53. *)
Fixpoint float_of_pos (p : positive) : PrimFloat.float :=
  match p with
  | xH => 1%float
  | xO q => PrimFloat.mul 2%float (float_of_pos q)
  | xI q => PrimFloat.add (PrimFloat.mul 2%float (float_of_pos q)) 1%float
  end.

Definition float_of_nat (n : nat) : PrimFloat.float :=
  match N.of_nat n with
  | N0 => 0%float
  | Npos p => float_of_pos p
  end.

(** [(count / total_queries) * 100], in binary64 as the code computes it. *)
Definition pct (count total_queries : nat) : PrimFloat.float :=
  PrimFloat.mul
    (PrimFloat.div (float_of_nat count) (float_of_nat total_queries))
    100%float.

End Rates.

(** [abs(true_wins_df['Pos_Delta'].mean()) if not true_wins_df.empty else 0] *)
Definition avg_win_depth (df : list QueryComparisonRow) : Q :=
  match true_wins_df df with
  | [] => 0
  | w => Qabs (group_mean (map Pos_Delta w))
  end.

(** [risky_df['Pos_Delta'].mean() if not risky_df.empty else 0] *)
Definition avg_loss_depth (df : list QueryComparisonRow) : Q :=
  match risky_df df with
  | [] => 0
  | l => group_mean (map Pos_Delta l)
  end.

Definition total_ranks_gained (df : list QueryComparisonRow) : Q :=
  match true_wins_df df with
  | [] => 0
  | w => Qabs (Qsum (map Pos_Delta w))
  end.

Definition total_ranks_lost (df : list QueryComparisonRow) : Q :=
  match risky_df df with
  | [] => 0
  | l => Qsum (map Pos_Delta l)
  end.

Definition net_rank_change (df : list QueryComparisonRow) : Q :=
  total_ranks_gained df - total_ranks_lost df.

(** [avg_loss_depth > (avg_win_depth * 1.5)] *)
Definition is_crash (df : list QueryComparisonRow) : bool :=
  Qgtb (avg_loss_depth df) (avg_win_depth df * (3 # 2)).

Record Scorecard : Type := {
  sc_total_queries : nat;
  sc_count_wins : nat;
  sc_pct_wins : PrimFloat.float;
  sc_count_risk : nat;
  sc_pct_risk : PrimFloat.float;
  sc_count_ineffective : nat;
  sc_pct_ineffective : PrimFloat.float;
  sc_avg_win_depth : Q;
  sc_avg_loss_depth : Q;
  sc_net_rank_change : Q;
  sc_is_crash : bool
}.

(** The scorecard of the strategy tab; [None] is the [st.stop()] taken when
    no query is left in the population. *)
Definition strategy_scorecard (st : list QueryComparisonRow)
  : option Scorecard :=
  let df := st_analysis_df st in
  let total_queries := length df in
  if (total_queries =? 0)%nat then None
  else Some
    {| sc_total_queries := total_queries;
       sc_count_wins := length (true_wins_df df);
       sc_pct_wins := pct (length (true_wins_df df)) total_queries;
       sc_count_risk := length (risky_df df);
       sc_pct_risk := pct (length (risky_df df)) total_queries;
       sc_count_ineffective := length (ineffective_df df);
       sc_pct_ineffective := pct (length (ineffective_df df)) total_queries;
       sc_avg_win_depth := avg_win_depth df;
       sc_avg_loss_depth := avg_loss_depth df;
       sc_net_rank_change := net_rank_change df;
       sc_is_crash := is_crash df |}.

Inductive OutcomeCategory : Type :=
| True_Win
| Risk_Drop
| Wasted
| Others.

Definition outcome_text (c : OutcomeCategory) : string :=
  match c with
  | True_Win => "True Win"
  | Risk_Drop => "Risk (Drop)"
  | Wasted => "Wasted"
  | Others => "Others"
  end.

Definition categorize_outcome (row : QueryComparisonRow) : OutcomeCategory :=
  if Qltb (Pos_Delta row) 0 && (0 <? Imp_Delta row)%Z then True_Win
  else if Num.gtb (CTR_Delta row) 3 && Qgtb (Pos_Delta row) 0 then Risk_Drop
  else if Num.gtb (CTR_Delta row) 3 && Qeq_bool (Pos_Delta row) 0 then Wasted
  else Others.

#[global] Instance OutcomeCategory_eq_dec : EqDecision OutcomeCategory.
Proof. solve_decision. Defined.

#[global] Instance TierLabel_eq_dec : EqDecision TierLabel.
Proof. solve_decision. Defined.

(** The number of rows of the frame in one outcome category, and its share
    of the population, computed like the rates of the scorecard. *)
Definition count_outcome (c : OutcomeCategory) (df : list QueryComparisonRow)
  : nat :=
  length (List.filter (fun r => bool_decide (categorize_outcome r = c)) df).


(** ** The rules in the words of the specification

    These definitions follow the specification, not the source; the
    theorems below compare them with the definitions above. *)

(** Lost-rank sentinel: [pos if pos > 0 else 100]. *)
Definition sentinel (pos : Q) : Q := if Qgtb pos 0 then pos else 100.

(** The tier cascade as an ordered list of (predicate, label) pairs. *)
Definition tier_cascade : list ((QueryComparisonRow -> bool) * TierLabel) :=
  [ (fun r => Qeq_bool (Position_A r) 0 && Qgtb (Position_B r) 0,
     Tier_S_New_Rank);
    (fun r => Qgtb (Position_B r) 0 && Qle_bool (Position_B r) 3
              && Qgtb (Position_A r) 3,
     Tier_Spp_Top_3_Win);
    (fun r => Qle_bool (Pos_Delta r) (-10), Tier_Sp_Jump_10);
    (fun r => Qgtb (Position_B r) 0 && Qle_bool (Position_B r) 10
              && Qle_bool (Pos_Delta r) (-3),
     Tier_A_Top_10_Solid);
    (fun r => Qltb (Pos_Delta r) 0, Tier_B_General_Jump);
    (fun r => Qgeb (Pos_Delta r) 10, Decliner_S_Crash_Lost);
    (fun r => Qle_bool (Position_A r) 10 && Qgeb (Pos_Delta r) 3,
     Decliner_A_Top_10_Drop);
    (fun r => Qgtb (Pos_Delta r) 0, Decliner_B_General_Drop) ].

(** First match wins; [dflt] when no predicate holds. *)
Fixpoint first_match {A L : Type} (rules : list ((A -> bool) * L)) (dflt : L)
  (x : A) : L :=
  match rules with
  | [] => dflt
  | (p, l) :: rest => if p x then l else first_match rest dflt x
  end.

Definition all_tier_labels : list TierLabel :=
  [ Tier_S_New_Rank; Tier_Spp_Top_3_Win; Tier_Sp_Jump_10;
    Tier_A_Top_10_Solid; Tier_B_General_Jump; Decliner_S_Crash_Lost;
    Decliner_A_Top_10_Drop; Decliner_B_General_Drop; No_Change ].

(** Average depth of the True Win rows: [mean(|Pos_Delta|)], 0 if empty. *)
Definition spec_avg_win_depth (df : list QueryComparisonRow) : Q :=
  match true_wins_df df with
  | [] => 0
  | w => group_mean (map (fun r => Qabs (Pos_Delta r)) w)
  end.

(** Average depth of the Risk rows: [mean(Pos_Delta)], 0 if empty. *)
Definition spec_avg_risk_depth (df : list QueryComparisonRow) : Q :=
  match risky_df df with
  | [] => 0
  | l => group_mean (map Pos_Delta l)
  end.

(** The severity warning rule. *)
Definition crash_rule (df : list QueryComparisonRow) : Prop :=
  (3 # 2) * spec_avg_win_depth df < spec_avg_risk_depth df.

(** The row of the comparison with the phases exchanged: sides swapped,
    every delta negated. *)
Definition swap_negate (r : QueryComparisonRow) : QueryComparisonRow :=
  {| Clicks_A := Clicks_B r;
     Impressions_A := Impressions_B r;
     Position_A := Position_B r;
     Clicks_B := Clicks_A r;
     Impressions_B := Impressions_A r;
     Position_B := Position_A r;
     Click_Delta := - Click_Delta r;
     Imp_Delta := - Imp_Delta r;
     CTR_A := CTR_B r;
     CTR_B := CTR_A r;
     CTR_Delta := Num.opp (CTR_Delta r);
     Pos_Delta := - Pos_Delta r |}.

(** Equality of two rows, cell by cell. *)
Definition row_equiv (r1 r2 : QueryComparisonRow) : Prop :=
  Clicks_A r1 = Clicks_A r2 /\ Impressions_A r1 = Impressions_A r2 /\
  Position_A r1 == Position_A r2 /\
  Clicks_B r1 = Clicks_B r2 /\ Impressions_B r1 = Impressions_B r2 /\
  Position_B r1 == Position_B r2 /\
  Click_Delta r1 = Click_Delta r2 /\ Imp_Delta r1 = Imp_Delta r2 /\
  Num.equiv (CTR_A r1) (CTR_A r2) /\ Num.equiv (CTR_B r1) (CTR_B r2) /\
  Num.equiv (CTR_Delta r1) (CTR_Delta r2) /\
  Pos_Delta r1 == Pos_Delta r2.

(** The rows of one query in one phase, in table order. *)
Definition group_rows (phase_id : Z) (k : string) (df_q : list QueryMetricRow)
  : list QueryMetricRow :=
  List.filter (fun r => bool_decide (Top_Queries r = k))
    (List.filter (fun r => (Phase_id r =? phase_id)%Z) df_q).

(** ** Sample data *)

Definition qrow (phase : Z) (q : string) (c i : Z) (pos : Q) : QueryMetricRow :=
  {| Phase_id := phase; Top_Queries := q;
     Clicks := c; Impressions := i; Position := pos |}.

(** One side of a merged row whose mean position is [pos]: zero-filled when
    the query does not rank in that phase. *)
Definition side_at (pos : Q) : QueryAgg :=
  if Qeq_bool pos 0 then zero_agg
  else {| agg_Clicks := 1; agg_Impressions := 10; agg_Position := pos |}.

Definition pos_row (pos_a pos_b : Q) : QueryComparisonRow :=
  delta_columns (side_at pos_a, side_at pos_b).

(** Phase 1 is the baseline, phase 2 the comparison.  ["x"] gains rank 5,
    ["y"] loses rank 3, ["z"] appears at rank 150, ["w"] keeps rank 8 with
    more clicks, ["v"] drops from rank 4 to rank 9 with more clicks. *)
Definition df_sample : list QueryMetricRow :=
  [ qrow 2 "x" 3 40 5;
    qrow 1 "y" 7 90 3;
    qrow 2 "z" 0 2 150;
    qrow 1 "w" 1 100 8;
    qrow 2 "w" 9 100 8;
    qrow 1 "v" 1 100 4;
    qrow 2 "v" 10 100 9 ].

(** A query with a click but no impression in phase 1. *)
Definition df_click_without_impression : list QueryMetricRow :=
  [ qrow 1 "x" 1 0 5;
    qrow 2 "x" 2 50 4 ].

(** Daily rows of phase 2 only. *)
Definition gsc_phase_2 : list DailyMetricRow :=
  [ {| d_Phase_id := 2; d_Clicks := 150; d_Impressions := 1000;
       d_Position := 5 |} ].



(** The merged frame of the sample in the strategy tab. *)
Definition st_sample : list QueryComparisonRow :=
  frame (st_merged 1 2 df_sample).

(** ** Phase selection *)

(** [Series.unique()]: the values in order of first appearance. *)
Fixpoint unique (l : list Z) : list Z :=
  match l with
  | [] => []
  | x :: rest => x :: List.filter (fun y => negb (y =? x)%Z) (unique rest)
  end.

(** [sorted(...)] on integers. *)
Fixpoint insert_sorted (x : Z) (l : list Z) : list Z :=
  match l with
  | [] => [x]
  | y :: rest => if (x <? y)%Z then x :: l else y :: insert_sorted x rest
  end.

Definition sorted (l : list Z) : list Z := fold_right insert_sorted [] l.

(** [sorted(domain_gsc['Phase_id'].unique())] *)
Definition unique_phases (domain_gsc : list DailyMetricRow) : list Z :=
  sorted (unique (map d_Phase_id domain_gsc)).

(** The phase a [selectbox] returns before the user touches it:
    [options[index]]. *)
Definition default_phase_a (phases : list Z) : option Z := nth_error phases 0.

(** [len(unique_phases) - 1 if len(unique_phases) > 1 else 0] *)
Definition default_index_b (phases : list Z) : nat :=
  if (1 <? length phases)%nat then (length phases - 1)%nat else 0%nat.

Definition default_phase_b (phases : list Z) : option Z :=
  nth_error phases (default_index_b phases).

(** The summaries of the overview tab: one per phase, in phase order. *)
Definition all_phases_metrics (domain_gsc : list DailyMetricRow)
  : list PhaseSummary :=
  map (fun pid => calculate_phase_metrics pid domain_gsc)
      (unique_phases domain_gsc).

(** ** Query movers *)

(** A frame row with its query text. *)
Definition KeyedRow : Type := (string * QueryComparisonRow)%type.

(** What the code relies on from [DataFrame.sort_values(by, ascending)]:
    the rows come back rearranged, in the order of the column.  The order
    among equal values is left to the sorting routine. *)
Definition sort_values_spec
  (sort_values : (KeyedRow -> Q) -> bool -> list KeyedRow -> list KeyedRow)
  : Prop :=
  forall by_col ascending l,
    Permutation (sort_values by_col ascending l) l /\
    StronglySorted
      (fun r1 r2 => if ascending : bool then by_col r1 <= by_col r2
                    else by_col r2 <= by_col r1)
      (sort_values by_col ascending l).

Definition col_Click_Delta (r : KeyedRow) : Q := inject_Z (Click_Delta r.2).
Definition col_Imp_Delta (r : KeyedRow) : Q := inject_Z (Imp_Delta r.2).
Definition col_Pos_Delta (r : KeyedRow) : Q := Pos_Delta r.2.

Section Movers.

Variable sort_values :
  (KeyedRow -> Q) -> bool -> list KeyedRow -> list KeyedRow.

(** [df_merged.sort_values(by='Click_Delta', ascending=False).head(max_rows)] *)
Definition top_gainers_click (max_rows : nat) (df_merged : list KeyedRow) :=
  firstn max_rows (sort_values col_Click_Delta false df_merged).

Definition top_losers_click (max_rows : nat) (df_merged : list KeyedRow) :=
  firstn max_rows (sort_values col_Click_Delta true df_merged).

Definition top_gainers_imp (max_rows : nat) (df_merged : list KeyedRow) :=
  firstn max_rows (sort_values col_Imp_Delta false df_merged).

Definition top_losers_imp (max_rows : nat) (df_merged : list KeyedRow) :=
  firstn max_rows (sort_values col_Imp_Delta true df_merged).

End Movers.

(** A sorting routine that meets [sort_values_spec]: insertion sort. *)
Fixpoint insert_by (by_col : KeyedRow -> Q) (ascending : bool) (x : KeyedRow)
  (l : list KeyedRow) : list KeyedRow :=
  match l with
  | [] => [x]
  | y :: rest =>
      if (if ascending then Qle_bool (by_col x) (by_col y)
          else Qle_bool (by_col y) (by_col x))
      then x :: l
      else y :: insert_by by_col ascending x rest
  end.

Definition insertion_sort (by_col : KeyedRow -> Q) (ascending : bool)
  (l : list KeyedRow) : list KeyedRow :=
  fold_right (insert_by by_col ascending) [] l.

(** ** Tier summary *)

(** [tier_merged] restricted to the rows that ranked in one phase at
    least. *)
Definition tier_analysis_df (tier_merged : list KeyedRow) : list KeyedRow :=
  List.filter (fun r => tier_prefilter r.2) tier_merged.

(** [tier_counts.get(label, 0)] *)
Definition tier_count (label : TierLabel) (df : list KeyedRow) : nat :=
  length (List.filter
            (fun r => bool_decide (categorize_tier_enhanced r.2 = label)) df).

Definition count_tier_s_all (df : list KeyedRow) : nat :=
  (tier_count Tier_S_New_Rank df + tier_count Tier_Spp_Top_3_Win df
   + tier_count Tier_Sp_Jump_10 df)%nat.
Definition count_tier_a (df : list KeyedRow) : nat :=
  tier_count Tier_A_Top_10_Solid df.
Definition count_tier_b (df : list KeyedRow) : nat :=
  tier_count Tier_B_General_Jump df.
Definition total_improvers (df : list KeyedRow) : nat :=
  (count_tier_s_all df + count_tier_a df + count_tier_b df)%nat.

Definition count_crash (df : list KeyedRow) : nat :=
  tier_count Decliner_S_Crash_Lost df.
Definition count_major_drop (df : list KeyedRow) : nat :=
  tier_count Decliner_A_Top_10_Drop df.
Definition count_minor_drop (df : list KeyedRow) : nat :=
  tier_count Decliner_B_General_Drop df.
Definition total_decliners (df : list KeyedRow) : nat :=
  (count_crash df + count_major_drop df + count_minor_drop df)%nat.

Definition count_no_change (df : list KeyedRow) : nat :=
  tier_count No_Change df.

(** [(count / total_keywords * 100) if total_keywords > 0 else 0] *)
Section TierRates.

Import PrimFloat.

Definition tier_rate (count total_keywords : nat) : PrimFloat.float :=
  if (0 <? total_keywords)%nat
  then PrimFloat.mul
         (PrimFloat.div (float_of_nat count) (float_of_nat total_keywords))
         100%float
  else 0%float.

End TierRates.

Definition win_rate (df : list KeyedRow) : PrimFloat.float :=
  tier_rate (total_improvers df) (length df).
Definition loss_rate (df : list KeyedRow) : PrimFloat.float :=
  tier_rate (total_decliners df) (length df).

(** The slices of the tier pie chart: label, value and colour, without the
    slices of value 0. *)
Definition pie_slices (df : list KeyedRow) : list (string * nat * string) :=
  [ ("Elite/Major Wins (Tier S)", count_tier_s_all df, "#1f77b4");
    ("Solid Wins (Tier A)", count_tier_a df, "#2ca02c");
    ("General Wins (Tier B)", count_tier_b df, "#98df8a");
    ("No Change", count_no_change df, "#d3d3d3");
    ("Minor Drops", count_minor_drop df, "#ff9896");
    ("Major Drops", count_major_drop df, "#d62728");
    ("Crashes", count_crash df, "#8c000f") ].

Definition chart_data (df : list KeyedRow) : list (string * nat * string) :=
  List.filter (fun s => (0 <? s.1.2)%nat) (pie_slices df).

Definition chart_values (df : list KeyedRow) : list nat :=
  map (fun s => s.1.2) (chart_data df).

(** [tier_analysis_df[Tier_Class.isin(tiers)]] *)
Definition tier_members (tiers : list TierLabel) (df : list KeyedRow)
  : list KeyedRow :=
  List.filter
    (fun r => bool_decide (categorize_tier_enhanced r.2 ∈ tiers)) df.

Definition s_tiers : list TierLabel :=
  [Tier_S_New_Rank; Tier_Spp_Top_3_Win; Tier_Sp_Jump_10].

Section TierTables.

Variable sort_values :
  (KeyedRow -> Q) -> bool -> list KeyedRow -> list KeyedRow.

(** The frame of one expander: the members of the tiers sorted by
    [Pos_Delta]; the expander shows its [head(50)]. *)
Definition tier_frame (tiers : list TierLabel) (ascending : bool)
  (df : list KeyedRow) : list KeyedRow :=
  sort_values col_Pos_Delta ascending (tier_members tiers df).

Definition df_s_combined := tier_frame s_tiers true.
Definition df_a := tier_frame [Tier_A_Top_10_Solid] true.
Definition df_b := tier_frame [Tier_B_General_Jump] true.
Definition df_d_s := tier_frame [Decliner_S_Crash_Lost] false.
Definition df_d_a := tier_frame [Decliner_A_Top_10_Drop] false.
Definition df_d_b := tier_frame [Decliner_B_General_Drop] false.

Definition tier_table (frame_of : list KeyedRow -> list KeyedRow)
  (df : list KeyedRow) : list KeyedRow :=
  firstn 50 (frame_of df).

End TierTables.

(** [shown] is a top-[n] selection of [df] by a column: it has [n] rows, or
    all of them when there are fewer, and no row left out comes before a row
    shown in the order of the column. *)
Definition is_top (by_col : KeyedRow -> Q) (ascending : bool) (n : nat)
  (df shown : list KeyedRow) : Prop :=
  length shown = Nat.min n (length df) /\
  exists rest,
    Permutation (shown ++ rest) df /\
    forall x y, In x shown -> In y rest ->
      if ascending then by_col x <= by_col y else by_col y <= by_col x.

(** The order of a column, ascending or descending. *)
Definition col_order (by_col : KeyedRow -> Q) (ascending : bool)
  (r1 r2 : KeyedRow) : Prop :=
  if ascending then by_col r1 <= by_col r2 else by_col r2 <= by_col r1.

(** The merged frame of the sample with its query texts. *)
Definition keyed_sample : list KeyedRow :=
  map_to_list (st_merged 1 2 df_sample).

(** ** Severity message of the scorecard *)



(** ** Password check ([check_password], in both scripts) *)

Module Auth.

(** A value of [st.session_state]. *)
Inductive value : Type :=
| VBool (b : bool)
| VStr (s : string).

#[global] Instance value_eq_dec : EqDecision value.
Proof. solve_decision. Defined.

(** Truth value of a Python object. *)
Definition truthy (v : value) : bool :=
  match v with
  | VBool b => b
  | VStr s => negb (bool_decide (s = ""))
  end.

(** The callback [password_entered]; [None] is the [KeyError] of
    [st.session_state["password"]]. *)
Definition password_entered (app_password : string)
  (session_state : gmap string value) : option (gmap string value) :=
  match session_state !! "password" with
  | None => None
  | Some v =>
      if bool_decide (v = VStr app_password)
      then Some (delete "password"
                   (<["password_correct" := VBool true]> session_state))
      else Some (<["password_correct" := VBool false]> session_state)
  end.

(** The text input is bound to the key ["password"]: a submission stores
    the typed text under that key and runs the callback. *)
Definition text_input_change (app_password typed : string)
  (session_state : gmap string value) : option (gmap string value) :=
  password_entered app_password (<["password" := VStr typed]> session_state).

(** What one run of [check_password] does: its result, whether the password
    form is drawn, and whether the error message is. *)
Record Check : Type := {
  passed : bool;
  form_shown : bool;
  error_shown : bool
}.

Definition check_password (session_state : gmap string value) : Check :=
  if truthy (default (VBool false) (session_state !! "password_correct"))
  then {| passed := true; form_shown := false; error_shown := false |}
  else
    {| passed := false;
       form_shown := true;
       error_shown :=
         match session_state !! "password_correct" with
         | Some v => negb (truthy v)
         | None => false
         end |}.

End Auth.

(** ** Bulk upload ([upload_data.py]) *)

Module Upload.

(** [range(start, stop, step)] for a positive step. *)
Fixpoint range_from (fuel start stop step : nat) : list nat :=
  match fuel with
  | O => []
  | S fuel' =>
      if (start <? stop)%nat
      then start :: range_from fuel' (start + step) stop step
      else []
  end.

Definition range (stop step : nat) : list nat := range_from stop 0 stop step.

(** [min((i + chunk_size) / total_records, 1.0)] *)
Definition progress_value (i chunk_size total_records : nat) : Q :=
  Qmin (Qnat (i + chunk_size) / Qnat total_records) 1.

(** What [batch_insert] leaves behind: its return value, the chunks handed
    to the table in order, and the values given to the progress bar. *)
Record Batch (R : Type) : Type := {
  returned : bool;
  inserted : list (list R);
  progress : list Q
}.
Arguments returned {R}.
Arguments inserted {R}.
Arguments progress {R}.

Section BatchInsert.

Context {R : Type}.

(** Whether the insert of the chunk that starts at row [i] goes through;
    [false] is an exception of the client. *)
Variable insert_ok : nat -> list R -> bool.

Fixpoint insert_chunks (records : list R) (chunk_size : nat)
  (starts : list nat) : Batch R :=
  match starts with
  | [] => {| returned := true; inserted := []; progress := [] |}
  | i :: rest =>
      let chunk := firstn chunk_size (skipn i records) in
      if insert_ok i chunk then
        let b := insert_chunks records chunk_size rest in
        {| returned := returned b;
           inserted := chunk :: inserted b;
           progress :=
             progress_value i chunk_size (length records) :: progress b |}
      else {| returned := false; inserted := []; progress := [] |}
  end.

(** [batch_insert(table_name, df, chunk_size)]; [None] is the [ValueError]
    of [range] for a step of 0. *)
Definition batch_insert (records : list R) (chunk_size : nat)
  : option (Batch R) :=
  if (chunk_size =? 0)%nat then None
  else Some (insert_chunks records chunk_size
               (range (length records) chunk_size)).

End BatchInsert.

Inductive Table : Type :=
| GSC
| Top_Queries_table.

Definition possible_domain_headers : list string :=
  ["Domain"; "domain"; "Domain Name"; "domain_name"].

(** The loop over [df.columns] that stops at the first domain header. *)
Definition domain_col_name (columns : list string) : option string :=
  List.find (fun col => bool_decide (col ∈ possible_domain_headers)) columns.

Definition target_cols (table_option : Table) : list string :=
  match table_option with
  | GSC => ["Clicks"; "Impressions"; "Position"; "Date"; "Phase_id";
            "Domain_id"]
  | Top_Queries_table =>
      ["Top_Queries"; "Clicks"; "Impressions"; "Position"; "Phase_id";
       "Domain_id"]
  end.

(** [Series.unique()] on strings: first appearances, in order. *)
Fixpoint unique_str (l : list string) : list string :=
  match l with
  | [] => []
  | x :: rest =>
      x :: List.filter (fun y => negb (bool_decide (y = x))) (unique_str rest)
  end.

Definition is_blank (dom : string) : bool :=
  bool_decide (dom ∈ [""; "nan"]).

(** The resolution loop.  [resolve] stands for [get_or_create_domain_id]
    ([None] when it reports an error); an id of 0 is falsy and stops the
    script like [None].  The result is the map built so far and the names
    handed to [resolve], most recent first; [None] for the map is
    [st.stop()]. *)
Fixpoint resolve_domains (resolve : string -> option Z)
  (unique_domains : list string) (domain_map : gmap string Z)
  (calls : list string) : option (gmap string Z) * list string :=
  match unique_domains with
  | [] => (Some domain_map, calls)
  | dom :: rest =>
      if is_blank dom then resolve_domains resolve rest domain_map calls
      else
        match resolve dom with
        | Some resolved_id =>
            if (resolved_id =? 0)%Z then (None, dom :: calls)
            else resolve_domains resolve rest
                   (<[dom := resolved_id]> domain_map) (dom :: calls)
        | None => (None, dom :: calls)
        end
  end.

(** Where the script stops, or the frame it offers for upload. *)
Inductive Validation : Type :=
| No_domain_column
| No_Phase_id_column
| Domain_not_resolved
| Empty_domain_cells
| No_Date_column
| Unexpected_error
| Missing_columns (missing : list string)
| Ready (domain_ids : list Z) (columns : list string).

(** The validation of an uploaded CSV, from its column names and from the
    cells of its domain column as [astype(str).str.strip()] leaves them.
    [dates_parse] tells whether [pd.to_datetime] accepts the [Date] column;
    when it raises, the handler around the script reports an unexpected
    error. *)
Definition validate (table_option : Table) (columns : list string)
  (domain_cells : list string) (resolve : string -> option Z)
  (dates_parse : bool) : Validation * list string :=
  match domain_col_name columns with
  | None => (No_domain_column, [])
  | Some _ =>
      if negb (bool_decide ("Phase_id" ∈ columns))
      then (No_Phase_id_column, [])
      else
        match resolve_domains resolve (unique_str domain_cells) ∅ [] with
        | (None, calls) => (Domain_not_resolved, rev calls)
        | (Some domain_map, calls) =>
            let domain_id := map (fun d => domain_map !! d) domain_cells in
            if existsb (fun o => negb (bool_decide (is_Some o))) domain_id
            then (Empty_domain_cells, rev calls)
            else
              let columns' :=
                if bool_decide ("Domain_id" ∈ columns) then columns
                else columns ++ ["Domain_id"] in
              if match table_option with
                 | GSC => negb (bool_decide ("Date" ∈ columns'))
                 | Top_Queries_table => false
                 end
              then (No_Date_column, rev calls)
              else if match table_option with
                      | GSC => negb dates_parse
                      | Top_Queries_table => false
                      end
              then (Unexpected_error, rev calls)
              else
                let missing :=
                  List.filter (fun c => negb (bool_decide (c ∈ columns')))
                    (target_cols table_option) in
                match missing with
                | [] => (Ready (omap id domain_id) (target_cols table_option),
                         rev calls)
                | _ => (Missing_columns missing, rev calls)
                end
        end
  end.

End Upload.

(** Sample uploads. *)
Definition accept_all (i : nat) (chunk : list nat) : bool := true.
Definition fail_from (n : nat) (i : nat) (chunk : list nat) : bool :=
  (i <? n)%nat.

Definition resolve_sample (dom : string) : option Z :=
  if bool_decide (dom = "a.com") then Some 1%Z
  else if bool_decide (dom = "b.org") then Some 2%Z
  else None.

(** * Properties *)

(** ** Boolean comparisons *)

Lemma Qle_bool_spec (x y : Q) : reflect (x <= y) (Qle_bool x y).
Proof. apply iff_reflect. symmetry. apply Qle_bool_iff. Qed.

Lemma Qeq_bool_spec (x y : Q) : reflect (x == y) (Qeq_bool x y).
Proof. apply iff_reflect. symmetry. apply Qeq_bool_iff. Qed.

(** Turn every comparison of the goal and of the context into a
    proposition, one case at a time. *)
Ltac qcases :=
  unfold Qgtb, Qgeb, Qltb in *;
  repeat match goal with
    | |- context [Qle_bool ?a ?b] => destruct (Qle_bool_spec a b)
    | |- context [Qeq_bool ?a ?b] => destruct (Qeq_bool_spec a b)
    | H : context [Qle_bool ?a ?b] |- _ => destruct (Qle_bool_spec a b)
    | H : context [Qeq_bool ?a ?b] |- _ => destruct (Qeq_bool_spec a b)
    end;
  simpl in *.

Lemma Qltb_lt (x y : Q) : Qltb x y = true <-> x < y.
Proof. qcases; split; intros; try discriminate; try reflexivity; lra. Qed.

Lemma Qgtb_gt (x y : Q) : Qgtb x y = true <-> y < x.
Proof. apply Qltb_lt. Qed.

(** ** The sentinel rule on one row *)

Lemma replace_zero_sentinel (x : Q) : 0 <= x -> replace_zero x == sentinel x.
Proof.
  unfold replace_zero, sentinel, MAX_RANK. intros Hx. qcases; lra.
Qed.

Lemma replace_zero_nonzero (x : Q) : ~ x == 0 -> replace_zero x = x.
Proof. unfold replace_zero. intros Hx. qcases; [contradiction | reflexivity]. Qed.

Lemma replace_zero_zero (x : Q) : x == 0 -> replace_zero x = 100.
Proof. unfold replace_zero. intros Hx. qcases; [reflexivity | contradiction]. Qed.

Lemma Pos_Delta_columns (a b : QueryAgg) :
  Pos_Delta (delta_columns (a, b))
  = replace_zero (agg_Position b) - replace_zero (agg_Position a).
Proof. reflexivity. Qed.

(** ** The tier cascade on one row *)

Lemma tier_sign (a b : QueryAgg) :
  let row := delta_columns (a, b) in
  match categorize_tier_enhanced row with
  | Tier_S_New_Rank => agg_Position a == 0 /\ 0 < agg_Position b
  | Tier_Spp_Top_3_Win | Tier_Sp_Jump_10
  | Tier_A_Top_10_Solid | Tier_B_General_Jump => Pos_Delta row < 0
  | Decliner_S_Crash_Lost | Decliner_A_Top_10_Drop
  | Decliner_B_General_Drop => 0 < Pos_Delta row
  | No_Change => Pos_Delta row == 0
  end.
Proof.
  destruct a as [ca ia pa], b as [cb ib pb].
  unfold categorize_tier_enhanced, delta_columns, replace_zero, MAX_RANK.
  cbn -[Qle_bool Qeq_bool Qminus].
  qcases; try lra; split; lra.
Qed.

(** ** Grouping and merging *)

Lemma groupby_lookup (rows : list QueryMetricRow) (k : string) :
  groupby rows !! k
  = match List.filter (fun r => bool_decide (Top_Queries r = k)) rows with
    | [] => None
    | g => Some g
    end.
Proof.
  induction rows as [|r rest IH]; [reflexivity|].
  cbn [groupby List.filter]. case_bool_decide as Hk.
  - subst k. rewrite lookup_insert_eq, IH.
    destruct (List.filter _ rest); reflexivity.
  - rewrite lookup_insert_ne by exact Hk. exact IH.
Qed.

Lemma aggregate_queries_lookup (p : Z) (df_q : list QueryMetricRow) (k : string) :
  aggregate_queries p df_q !! k
  = match group_rows p k df_q with
    | [] => None
    | g => Some (agg g)
    end.
Proof.
  unfold aggregate_queries, group_rows.
  rewrite lookup_fmap, groupby_lookup.
  destruct (List.filter _ (List.filter _ df_q)); reflexivity.
Qed.

(** On a group the mean of pandas is defined. *)
Lemma series_mean_group (p : Z) (df_q : list QueryMetricRow) (k : string) a :
  aggregate_queries p df_q !! k = Some a ->
  series_mean (map Position (group_rows p k df_q)) = Num.Fin (agg_Position a).
Proof.
  rewrite aggregate_queries_lookup.
  destruct (group_rows p k df_q) as [|r g] eqn:E; [discriminate|].
  intros [= <-]. reflexivity.
Qed.

Lemma merge_outer_lookup (a b : gmap string QueryAgg) (k : string) :
  merge_outer a b !! k
  = match a !! k, b !! k with
    | None, None => None
    | oa, ob => Some (default zero_agg oa, default zero_agg ob)
    end.
Proof.
  unfold merge_outer. rewrite lookup_merge.
  destruct (a !! k), (b !! k); reflexivity.
Qed.

Lemma st_merged_lookup (pa pb : Z) (df_q : list QueryMetricRow) (k : string) :
  st_merged pa pb df_q !! k
  = match aggregate_queries pa df_q !! k, aggregate_queries pb df_q !! k with
    | None, None => None
    | oa, ob => Some (delta_columns (default zero_agg oa, default zero_agg ob))
    end.
Proof.
  unfold st_merged. rewrite lookup_fmap, merge_outer_lookup.
  destruct (aggregate_queries pa df_q !! k), (aggregate_queries pb df_q !! k);
    reflexivity.
Qed.

Lemma compareQueries_st_merged (pa pb : Z) (df_q : list QueryMetricRow) t :
  compareQueries pa pb df_q = Some t -> t = st_merged pa pb df_q.
Proof.
  unfold compareQueries. destruct (pa =? pb)%Z; [discriminate|].
  intros [= <-]. reflexivity.
Qed.

(** Every row of the merged frame is [delta_columns] of its two sides, and a
    side is either the aggregate of the query in that phase or zero-filled. *)
Lemma st_merged_row (pa pb : Z) (df_q : list QueryMetricRow) (k : string) r :
  st_merged pa pb df_q !! k = Some r ->
  exists a b,
    r = delta_columns (a, b) /\
    (aggregate_queries pa df_q !! k = Some a \/
     aggregate_queries pa df_q !! k = None /\ a = zero_agg) /\
    (aggregate_queries pb df_q !! k = Some b \/
     aggregate_queries pb df_q !! k = None /\ b = zero_agg).
Proof.
  rewrite st_merged_lookup.
  destruct (aggregate_queries pa df_q !! k) as [a|] eqn:Ea,
           (aggregate_queries pb df_q !! k) as [b|] eqn:Eb;
    intros [= <-]; cbn [default]; eauto 10.
Qed.

(** ** Sums and means *)

Lemma Qsum_nonneg (l : list Q) :
  Forall (fun x => 0 <= x) l -> 0 <= Qsum l.
Proof.
  induction 1 as [|x l Hx _ IH]; unfold Qsum in *; cbn [fold_right]; lra.
Qed.

Lemma Qsum_nonpos (l : list Q) :
  Forall (fun x => x <= 0) l -> Qsum l <= 0.
Proof.
  induction 1 as [|x l Hx _ IH]; unfold Qsum in *; cbn [fold_right]; lra.
Qed.

Lemma Zsum_nonneg (l : list Z) :
  Forall (fun x => (0 <= x)%Z) l -> (0 <= Zsum l)%Z.
Proof.
  induction 1 as [|x l Hx _ IH]; unfold Zsum in *; cbn [fold_right]; lia.
Qed.

Lemma Qnat_nonneg (n : nat) : 0 <= Qnat n.
Proof.
  unfold Qnat. change 0 with (inject_Z 0). rewrite <- Zle_Qle. lia.
Qed.

Lemma Qdiv_nonneg (x y : Q) : 0 <= x -> 0 <= y -> 0 <= x / y.
Proof.
  intros Hx Hy. unfold Qdiv. apply Qmult_le_0_compat; [exact Hx|].
  apply Qinv_le_0_compat. exact Hy.
Qed.

Lemma group_mean_nonneg (l : list Q) :
  Forall (fun x => 0 <= x) l -> 0 <= group_mean l.
Proof.
  intros Hl. unfold group_mean.
  apply Qdiv_nonneg; [apply Qsum_nonneg, Hl | apply Qnat_nonneg].
Qed.

(** ** Position delta *)

Lemma aggregate_position_nonneg (p : Z) (df_q : list QueryMetricRow) k a :
  (forall row, In row df_q -> 0 <= Position row) ->
  aggregate_queries p df_q !! k = Some a ->
  0 <= agg_Position a.
Proof.
  intros Hpos. rewrite aggregate_queries_lookup.
  destruct (group_rows p k df_q) as [|r g] eqn:E; [discriminate|].
  intros [= <-]. cbn [agg agg_Position]. apply group_mean_nonneg.
  apply List.Forall_forall. intros x Hx.
  apply in_map_iff in Hx as (row & <- & Hrow).
  apply Hpos. rewrite <- E in Hrow. unfold group_rows in Hrow.
  apply filter_In in Hrow as [Hrow _]. apply filter_In in Hrow as [Hrow _].
  exact Hrow.
Qed.

Lemma side_position_nonneg (p : Z) (df_q : list QueryMetricRow) k a :
  (forall row, In row df_q -> 0 <= Position row) ->
  aggregate_queries p df_q !! k = Some a \/
  aggregate_queries p df_q !! k = None /\ a = zero_agg ->
  0 <= agg_Position a.
Proof.
  intros Hpos [Ha | [_ ->]].
  - eapply aggregate_position_nonneg; eassumption.
  - cbn. lra.
Qed.

(** C1.  In every row of the joined delta table, over a fact table whose
    positions are not negative, [Pos_Delta] is the sentinel-adjusted
    subtraction [posB' - posA'] with [pos' = pos if pos > 0 else 100]; it is
    negative exactly when the adjusted position improved and positive exactly
    when it worsened; with posA = 0 and posB = 5 it is -95, and with posA = 3
    and posB = 0 it is +97. *)
Theorem pos_delta_sentinel_rule
  (pa pb : Z) (df_q : list QueryMetricRow)
  (t : gmap string QueryComparisonRow) (k : string) (r : QueryComparisonRow) :
  (forall row, In row df_q -> 0 <= Position row) ->
  compareQueries pa pb df_q = Some t ->
  t !! k = Some r ->
  Pos_Delta r == sentinel (Position_B r) - sentinel (Position_A r) /\
  (Pos_Delta r < 0 <-> sentinel (Position_B r) < sentinel (Position_A r)) /\
  (0 < Pos_Delta r <-> sentinel (Position_A r) < sentinel (Position_B r)) /\
  (Position_A r == 0 -> Position_B r == 5 -> Pos_Delta r == -95) /\
  (Position_A r == 3 -> Position_B r == 0 -> Pos_Delta r == 97).
Proof.
  intros Hpos Ht Hr. apply compareQueries_st_merged in Ht. subst t.
  apply st_merged_row in Hr as (a & b & -> & Ha & Hb).
  pose proof (side_position_nonneg _ _ _ _ Hpos Ha) as Hpa.
  pose proof (side_position_nonneg _ _ _ _ Hpos Hb) as Hpb.
  rewrite Pos_Delta_columns. cbn [delta_columns Position_A Position_B fst snd].
  rewrite (replace_zero_sentinel _ Hpa), (replace_zero_sentinel _ Hpb).
  repeat split; try lra.
  - intros HA HB. unfold sentinel. qcases; lra.
  - intros HA HB. unfold sentinel. qcases; lra.
Qed.

Lemma pos_delta_sentinel_rule_witness :
  exists r, st_merged 1 2 df_sample !! "x" = Some r /\ Pos_Delta r == -95.
Proof.
  exists (delta_columns (zero_agg, agg [qrow 2 "x" 3 40 5])).
  split; [vm_compute; reflexivity|].
  refine (proj1 (proj2 (proj2 (proj2
    (pos_delta_sentinel_rule 1 2 df_sample (st_merged 1 2 df_sample) "x" _
       _ eq_refl _)))) _ _).
  - intros row Hrow. cbn in Hrow.
    repeat (destruct Hrow as [<- | Hrow]; [vm_compute; discriminate|]).
    destruct Hrow.
  - vm_compute. reflexivity.
  - vm_compute. reflexivity.
  - vm_compute. reflexivity.
Defined.

(** ** Tier classifier *)

Lemma categorize_tier_cascade (row : QueryComparisonRow) :
  categorize_tier_enhanced row = first_match tier_cascade No_Change row.
Proof.
  unfold categorize_tier_enhanced, tier_cascade, first_match. reflexivity.
Qed.

Lemma categorize_tier_label (row : QueryComparisonRow) :
  In (categorize_tier_enhanced row) all_tier_labels.
Proof.
  destruct (categorize_tier_enhanced row); cbn; tauto.
Qed.

Lemma all_tier_labels_NoDup : List.NoDup all_tier_labels.
Proof.
  unfold all_tier_labels.
  repeat (constructor; [cbn; intuition discriminate|]). constructor.
Qed.

(** Every label is attained by a row that passes the pre-filter. *)
Lemma tier_labels_attained :
  forall l, In l all_tier_labels ->
  exists pos_a pos_b,
    tier_prefilter (pos_row pos_a pos_b) = true /\
    categorize_tier_enhanced (pos_row pos_a pos_b) = l.
Proof.
  intros l Hl. cbn in Hl.
  repeat destruct Hl as [<- | Hl]; try destruct Hl.
  - exists 0, 5. split; reflexivity.
  - exists 5, 2. split; reflexivity.
  - exists 20, 5. split; reflexivity.
  - exists 12, 8. split; reflexivity.
  - exists 50, 48. split; reflexivity.
  - exists 5, 20. split; reflexivity.
  - exists 5, 9. split; reflexivity.
  - exists 50, 52. split; reflexivity.
  - exists 5, 5. split; reflexivity.
Qed.

(** C2, as stated: no set of 8 labels holds the label of every row that
    passes the pre-filter; the cascade assigns 9 distinct labels (its 8 tiers
    and ['No Change']). *)
Lemma tier_labels_not_eight :
  ~ exists labels : list TierLabel,
      (length labels <= 8)%nat /\
      forall pos_a pos_b,
        tier_prefilter (pos_row pos_a pos_b) = true ->
        In (categorize_tier_enhanced (pos_row pos_a pos_b)) labels.
Proof.
  intros (labels & Hlen & Hall).
  assert (Hincl : incl all_tier_labels labels).
  { intros l Hl. destruct (tier_labels_attained l Hl) as (pa & pb & Hf & <-).
    apply Hall, Hf. }
  pose proof (List.NoDup_incl_length all_tier_labels_NoDup Hincl) as Hn.
  cbn in Hn. lia.
Qed.

(** C2, amended.  The classifier is a total function of one row: every row
    that passes the pre-filter gets exactly one of the 9 labels (the 8 tiers
    of the cascade or ['No Change']), the one of the first predicate of the
    cascade, in its order, that holds; with posA = 0 and posB = 5 the label
    is Tier S (New Rank) although [Pos_Delta = -95 <= -10]. *)
Theorem tier_classifier_first_match
  (pa pb : Z) (df_q : list QueryMetricRow)
  (t : gmap string QueryComparisonRow) (k : string) (r : QueryComparisonRow) :
  compareQueries pa pb df_q = Some t ->
  t !! k = Some r ->
  tier_prefilter r = true ->
  categorize_tier_enhanced r = first_match tier_cascade No_Change r /\
  In (categorize_tier_enhanced r) all_tier_labels /\
  List.NoDup all_tier_labels /\ length all_tier_labels = 9%nat /\
  (Position_A r == 0 -> Position_B r == 5 ->
   categorize_tier_enhanced r = Tier_S_New_Rank /\
   Pos_Delta r == -95 /\ Qle_bool (Pos_Delta r) (-10) = true).
Proof.
  intros Ht Hr _. apply compareQueries_st_merged in Ht. subst t.
  apply st_merged_row in Hr as (a & b & -> & _ & _).
  split; [apply categorize_tier_cascade|].
  split; [apply categorize_tier_label|].
  split; [apply all_tier_labels_NoDup|].
  split; [reflexivity|].
  destruct a as [ca ia pos_a], b as [cb ib pos_b].
  unfold categorize_tier_enhanced, delta_columns, replace_zero, MAX_RANK.
  cbn -[Qle_bool Qeq_bool Qminus]. intros HA HB.
  qcases; repeat split; try reflexivity; try lra.
Qed.

Lemma tier_classifier_first_match_witness :
  exists r,
    st_merged 1 2 df_sample !! "x" = Some r /\
    categorize_tier_enhanced r = Tier_S_New_Rank /\
    Qle_bool (Pos_Delta r) (-10) = true.
Proof.
  exists (delta_columns (zero_agg, agg [qrow 2 "x" 3 40 5])).
  split; [vm_compute; reflexivity|].
  destruct (tier_classifier_first_match 1 2 df_sample
              (st_merged 1 2 df_sample) "x"
              (delta_columns (zero_agg, agg [qrow 2 "x" 3 40 5])))
    as (_ & _ & _ & _ & H).
  - reflexivity.
  - vm_compute. reflexivity.
  - vm_compute. reflexivity.
  - destruct H as (H1 & _ & H3).
    + vm_compute. reflexivity.
    + vm_compute. reflexivity.
    + split; assumption.
Defined.

(** C9.  In every classified row each decliner tier implies
    [Pos_Delta > 0], each of the tiers S++, S+, A and B implies
    [Pos_Delta < 0], and ['No Change'] implies [Pos_Delta = 0]; a row with
    posA = 0 and posB >= 100 is Tier S (New Rank) with [Pos_Delta >= 0]. *)
Theorem tier_sign_invariant
  (pa pb : Z) (df_q : list QueryMetricRow)
  (t : gmap string QueryComparisonRow) (k : string) (r : QueryComparisonRow) :
  compareQueries pa pb df_q = Some t ->
  t !! k = Some r ->
  tier_prefilter r = true ->
  (In (categorize_tier_enhanced r)
      [Decliner_S_Crash_Lost; Decliner_A_Top_10_Drop; Decliner_B_General_Drop]
   -> 0 < Pos_Delta r) /\
  (In (categorize_tier_enhanced r)
      [Tier_Spp_Top_3_Win; Tier_Sp_Jump_10; Tier_A_Top_10_Solid;
       Tier_B_General_Jump]
   -> Pos_Delta r < 0) /\
  (categorize_tier_enhanced r = No_Change -> Pos_Delta r == 0) /\
  (Position_A r == 0 -> 100 <= Position_B r ->
   categorize_tier_enhanced r = Tier_S_New_Rank /\ 0 <= Pos_Delta r).
Proof.
  intros Ht Hr _. apply compareQueries_st_merged in Ht. subst t.
  apply st_merged_row in Hr as (a & b & -> & _ & _).
  pose proof (tier_sign a b) as Hs. cbv zeta in Hs.
  refine (conj _ (conj _ (conj _ _))).
  - intros Hin. cbn in Hin.
    destruct Hin as [E | [E | [E | []]]]; rewrite <- E in Hs; exact Hs.
  - intros Hin. cbn in Hin.
    destruct Hin as [E | [E | [E | [E | []]]]]; rewrite <- E in Hs; exact Hs.
  - intros E. rewrite E in Hs. exact Hs.
  - clear Hs. destruct a as [ca ia pos_a], b as [cb ib pos_b].
    unfold categorize_tier_enhanced, delta_columns, replace_zero, MAX_RANK.
    cbn -[Qle_bool Qeq_bool Qminus]. intros HA HB.
    qcases; split; try reflexivity; lra.
Qed.

Lemma tier_sign_invariant_witness :
  exists r,
    st_merged 1 2 df_sample !! "z" = Some r /\
    categorize_tier_enhanced r = Tier_S_New_Rank /\ 0 <= Pos_Delta r.
Proof.
  exists (delta_columns (zero_agg, agg [qrow 2 "z" 0 2 150])).
  split; [vm_compute; reflexivity|].
  refine (proj2 (proj2 (proj2
    (tier_sign_invariant 1 2 df_sample (st_merged 1 2 df_sample) "z" _
       eq_refl _ _))) _ _).
  - vm_compute. reflexivity.
  - vm_compute. reflexivity.
  - vm_compute. reflexivity.
  - vm_compute. discriminate.
Defined.

(** ** Scorecard criteria *)

Lemma criteria_pairwise_exclusive (r : QueryComparisonRow) :
  is_true_win r && is_risky r = false /\
  is_true_win r && is_ineffective r = false /\
  is_risky r && is_ineffective r = false.
Proof.
  unfold is_true_win, is_risky, is_ineffective.
  destruct (Num.gtb (CTR_Delta r) 3), (0 <? Imp_Delta r)%Z;
    qcases; repeat split; try reflexivity; lra.
Qed.

(** C3, as stated: no row of the scorecard population satisfies more than
    one of the three criteria, since they require [Pos_Delta < 0],
    [Pos_Delta > 0] and [Pos_Delta = 0]. *)
Lemma criteria_never_overlap :
  ~ exists r : QueryComparisonRow,
      st_population r = true /\
      (is_true_win r && is_risky r
       || is_true_win r && is_ineffective r
       || is_risky r && is_ineffective r) = true.
Proof.
  intros (r & _ & H).
  destruct (criteria_pairwise_exclusive r) as (H1 & H2 & H3).
  rewrite H1, H2, H3 in H. discriminate.
Qed.

(** C3, amended.  The three effectiveness criteria are pairwise mutually
    exclusive: no row satisfies two of them; they are not exhaustive: a row
    of the population may satisfy none. *)
Theorem criteria_exclusive_not_exhaustive :
  (forall r : QueryComparisonRow,
      ~ (is_true_win r = true /\ is_risky r = true) /\
      ~ (is_true_win r = true /\ is_ineffective r = true) /\
      ~ (is_risky r = true /\ is_ineffective r = true)) /\
  (exists r, In r st_sample /\ st_population r = true /\
             is_true_win r = false /\ is_risky r = false /\
             is_ineffective r = false).
Proof.
  split.
  - intros r. destruct (criteria_pairwise_exclusive r) as (H1 & H2 & H3).
    repeat split; intros [Ha Hb]; rewrite Ha, Hb in *; discriminate.
  - exists (delta_columns (agg [qrow 1 "y" 7 90 3], zero_agg)).
    split; [|repeat split; vm_compute; reflexivity].
    vm_compute. tauto.
Qed.

(** ** Magnitude check *)

Lemma Qsum_map_Qabs_nonpos (l : list Q) :
  Forall (fun x => x <= 0) l -> Qsum (map Qabs l) == - Qsum l.
Proof.
  induction 1 as [|x l Hx _ IH]; unfold Qsum in *; cbn [map fold_right].
  - reflexivity.
  - rewrite IH, (Qabs_neg x Hx). ring.
Qed.

(** On values that are all non-positive, the absolute value of the mean is
    the mean of the absolute values. *)
Lemma Qabs_group_mean_nonpos (l : list Q) :
  Forall (fun x => x <= 0) l ->
  Qabs (group_mean l) == group_mean (map Qabs l).
Proof.
  intros Hl. unfold group_mean.
  rewrite length_map, (Qsum_map_Qabs_nonpos l Hl).
  pose proof (Qsum_nonpos l Hl) as Hs.
  pose proof (Qnat_nonneg (length l)) as Hn. unfold Qnat in Hn.
  rewrite Qabs_neg.
  - unfold Qdiv. ring.
  - assert (H : 0 <= (- Qsum l) / inject_Z (Z.of_nat (length l))).
    { apply Qdiv_nonneg; [lra | exact Hn]. }
    unfold Qdiv in *. lra.
Qed.

Lemma true_wins_nonpos (df : list QueryComparisonRow) :
  Forall (fun x => x <= 0) (map Pos_Delta (true_wins_df df)).
Proof.
  apply List.Forall_forall. intros x Hx.
  apply in_map_iff in Hx as (r & <- & Hr).
  apply filter_In in Hr as [_ Hr]. unfold is_true_win in Hr.
  apply andb_prop in Hr as [Hr _]. apply Qltb_lt in Hr. lra.
Qed.

Lemma avg_win_depth_spec (df : list QueryComparisonRow) :
  avg_win_depth df == spec_avg_win_depth df.
Proof.
  unfold avg_win_depth, spec_avg_win_depth.
  pose proof (true_wins_nonpos df) as Hw.
  destruct (true_wins_df df) as [|r w]; [reflexivity|].
  rewrite (Qabs_group_mean_nonpos _ Hw), map_map. reflexivity.
Qed.

Lemma avg_win_depth_nonneg (df : list QueryComparisonRow) :
  0 <= avg_win_depth df.
Proof.
  unfold avg_win_depth.
  destruct (true_wins_df df); [lra | apply Qabs_nonneg].
Qed.

Lemma is_crash_rule (df : list QueryComparisonRow) :
  is_crash df = true <-> crash_rule df.
Proof.
  unfold is_crash, crash_rule. rewrite Qgtb_gt.
  rewrite <- (avg_win_depth_spec df).
  change (spec_avg_risk_depth df) with (avg_loss_depth df).
  split; intros H; lra.
Qed.

Lemma is_crash_no_risk (df : list QueryComparisonRow) :
  risky_df df = [] -> is_crash df = false.
Proof.
  intros Hr. unfold is_crash, avg_loss_depth. rewrite Hr.
  pose proof (avg_win_depth_nonneg df) as Hw.
  qcases; [reflexivity | lra].
Qed.

(** C7.  The crash warning of the scorecard is raised exactly when the
    average Risk depth (mean of [Pos_Delta] over the Risk rows, 0 if there
    are none) exceeds 1.5 times the average True-Win depth (mean of
    [|Pos_Delta|] over the True Win rows, 0 if there are none); it is never
    raised when there are no Risk rows. *)
Theorem crash_warning_rule
  (st : list QueryComparisonRow) (sc : Scorecard) :
  strategy_scorecard st = Some sc ->
  (sc_is_crash sc = true <-> crash_rule (st_analysis_df st)) /\
  (risky_df (st_analysis_df st) = [] -> sc_is_crash sc = false).
Proof.
  unfold strategy_scorecard.
  destruct (length (st_analysis_df st) =? 0)%nat; [discriminate|].
  intros [= <-]. cbn [sc_is_crash]. split.
  - apply is_crash_rule.
  - apply is_crash_no_risk.
Qed.

Lemma crash_warning_rule_witness :
  exists sc,
    strategy_scorecard st_sample = Some sc /\
    (sc_is_crash sc = true <-> crash_rule (st_analysis_df st_sample)).
Proof.
  destruct (strategy_scorecard st_sample) as [sc|] eqn:E;
    [|vm_compute in E; discriminate].
  exists sc. split; [reflexivity|].
  exact (proj1 (crash_warning_rule st_sample sc E)).
Defined.

(** ** Outcome categories *)

Lemma categorize_outcome_priority (r : QueryComparisonRow) :
  (categorize_outcome r = True_Win <-> is_true_win r = true) /\
  (categorize_outcome r = Risk_Drop <->
   is_true_win r = false /\ is_risky r = true) /\
  (categorize_outcome r = Wasted <->
   is_true_win r = false /\ is_risky r = false /\ is_ineffective r = true) /\
  (categorize_outcome r = Others <->
   is_true_win r = false /\ is_risky r = false /\ is_ineffective r = false).
Proof.
  unfold categorize_outcome.
  fold (is_true_win r). fold (is_risky r). fold (is_ineffective r).
  destruct (is_true_win r), (is_risky r), (is_ineffective r);
    intuition (discriminate || reflexivity).
Qed.

Lemma count_outcome_partition (df : list QueryComparisonRow) :
  (count_outcome True_Win df + count_outcome Risk_Drop df
   + count_outcome Wasted df + count_outcome Others df)%nat = length df.
Proof.
  unfold count_outcome.
  induction df as [|r df IH]; [reflexivity|].
  cbn [List.filter length].
  destruct (categorize_outcome r);
    repeat case_bool_decide; try congruence; cbn [length]; lia.
Qed.



(** ** Zero denominators *)

Lemma ctr_column_nonneg (c i : Z) :
  (0 <= c)%Z -> (0 <= i)%Z ->
  (exists q, ctr_column c i = Num.Fin q /\ 0 <= q) \/
  ctr_column c i = Num.PInf.
Proof.
  intros Hc Hi. unfold ctr_column, Num.div.
  destruct (i =? 0)%Z eqn:Ei.
  - destruct (0 <? c)%Z eqn:Ec; [right; reflexivity|].
    destruct (c <? 0)%Z eqn:Ec'; [lia|].
    left. exists 0. split; [reflexivity | lra].
  - left. eexists. split; [reflexivity|].
    apply Z.eqb_neq in Ei.
    apply Qmult_le_0_compat; [|lra].
    apply Qdiv_nonneg; change 0 with (inject_Z 0); rewrite <- Zle_Qle; lia.
Qed.

(** The guard of [fillna(0)] covers [0/0] only. *)
Lemma ctr_column_zero_impressions (c : Z) :
  ctr_column c 0
  = if (0 <? c)%Z then Num.PInf
    else if (c <? 0)%Z then Num.NInf else Num.Fin 0.
Proof.
  unfold ctr_column, Num.div. cbn [Z.eqb].
  destruct (0 <? c)%Z; [reflexivity|]. destruct (c <? 0)%Z; reflexivity.
Qed.

(** The conditional of [calculate_phase_metrics] covers every zero
    denominator. *)
Lemma phase_ctr_finite (p : Z) (df : list DailyMetricRow) :
  Num.is_finite (s_CTR (calculate_phase_metrics p df)) = true.
Proof.
  unfold calculate_phase_metrics. cbn [s_CTR].
  destruct (0 <? _)%Z eqn:E; [|reflexivity].
  unfold Num.div. apply Z.ltb_lt in E.
  destruct (Z.eqb_spec (Zsum (map d_Impressions
              (List.filter (fun r => (d_Phase_id r =? p)%Z) df))) 0);
    [lia | reflexivity].
Qed.

(** C4, at a query with one click and no impression in phase A: the CTR of
    that side in the delta table is [inf], not 0, and [CTR_Delta] is
    [-inf]. *)
Theorem ctr_click_without_impression :
  (forall row, In row df_click_without_impression ->
     (0 <= Clicks row)%Z /\ (0 <= Impressions row)%Z) /\
  exists t r,
    compareQueries 1 2 df_click_without_impression = Some t /\
    t !! "x" = Some r /\
    Impressions_A r = 0%Z /\
    CTR_A r = Num.PInf /\ Num.is_finite (CTR_A r) = false /\
    CTR_Delta r = Num.NInf /\
    st_merged 1 2 df_click_without_impression !! "x" = Some r.
Proof.
  split.
  - intros row Hrow. cbn in Hrow.
    destruct Hrow as [<- | [<- | []]]; cbn; lia.
  - eexists. eexists. split; [reflexivity|].
    split; [vm_compute; reflexivity|].
    repeat split; vm_compute; reflexivity.
Qed.

(** ** Empty phase *)

Lemma filter_none {A : Type} (f : A -> bool) (l : list A) :
  (forall x, In x l -> f x = false) -> List.filter f l = [].
Proof.
  induction l as [|x l IH]; intros H; [reflexivity|].
  cbn. rewrite (H x (or_introl eq_refl)). apply IH.
  intros y Hy. apply H. right. exact Hy.
Qed.

(** C5, as stated: for a phase without rows the mean position of the summary
    is not a zero-valued metric. *)
Lemma empty_phase_position_not_zero :
  let s := calculate_phase_metrics 1 gsc_phase_2 in
  ~ (s_Clicks s = 0%Z /\ s_Impressions s = 0%Z /\
     Num.equiv (s_CTR s) (Num.Fin 0) /\
     Num.equiv (s_Position s) (Num.Fin 0)).
Proof.
  cbv zeta. intros (_ & _ & _ & H). vm_compute in H. exact H.
Qed.

(** C5, amended.  When no rows exist for the requested phase, the phase
    summary has total clicks 0, total impressions 0 and CTR 0, and nothing
    is raised; its mean position is undefined (NaN), not zero. *)
Theorem empty_phase_summary (p : Z) (df : list DailyMetricRow) :
  (forall r, In r df -> d_Phase_id r <> p) ->
  let s := calculate_phase_metrics p df in
  s_Phase_id s = p /\ s_Clicks s = 0%Z /\ s_Impressions s = 0%Z /\
  s_CTR s = Num.Fin 0 /\ s_Position s = Num.NaN.
Proof.
  intros Hp. unfold calculate_phase_metrics.
  rewrite (filter_none (fun r => (d_Phase_id r =? p)%Z) df).
  - cbn. repeat split; reflexivity.
  - intros r Hr. apply Z.eqb_neq. apply Hp, Hr.
Qed.

Lemma empty_phase_summary_witness :
  let s := calculate_phase_metrics 1 gsc_phase_2 in
  s_Clicks s = 0%Z /\ s_CTR s = Num.Fin 0 /\ s_Position s = Num.NaN.
Proof.
  destruct (empty_phase_summary 1 gsc_phase_2) as (_ & Hc & _ & Hr & Hpos).
  - intros r Hr. cbn in Hr. destruct Hr as [<- | []]. cbn. lia.
  - cbv zeta. repeat split; assumption.
Defined.

(** ** Queries present in one phase only *)

Lemma group_rows_In (p : Z) (k : string) (df_q : list QueryMetricRow) row :
  In row (group_rows p k df_q) <->
  In row df_q /\ Phase_id row = p /\ Top_Queries row = k.
Proof.
  unfold group_rows. rewrite !filter_In, bool_decide_eq_true, Z.eqb_eq.
  tauto.
Qed.

Lemma group_rows_present (p : Z) (k : string) (df_q : list QueryMetricRow) :
  (exists row, In row df_q /\ Phase_id row = p /\ Top_Queries row = k) ->
  exists a, aggregate_queries p df_q !! k = Some a /\
            a = agg (group_rows p k df_q).
Proof.
  intros (row & Hrow). apply group_rows_In in Hrow.
  rewrite aggregate_queries_lookup.
  destruct (group_rows p k df_q) as [|r g]; [destruct Hrow|].
  eexists. split; reflexivity.
Qed.

Lemma group_rows_absent (p : Z) (k : string) (df_q : list QueryMetricRow) :
  (forall row, In row df_q -> Phase_id row = p -> Top_Queries row <> k) ->
  aggregate_queries p df_q !! k = None.
Proof.
  intros Habs. rewrite aggregate_queries_lookup.
  destruct (group_rows p k df_q) as [|r g] eqn:E; [reflexivity|].
  assert (Hr : In r (group_rows p k df_q)) by (rewrite E; left; reflexivity).
  apply group_rows_In in Hr as (Hin & Hp & Hk).
  exfalso. exact (Habs r Hin Hp Hk).
Qed.

Lemma agg_nonneg (g : list QueryMetricRow) :
  (forall row, In row g -> (0 <= Clicks row)%Z /\ (0 <= Impressions row)%Z) ->
  (0 <= agg_Clicks (agg g))%Z /\ (0 <= agg_Impressions (agg g))%Z.
Proof.
  intros H. cbn [agg agg_Clicks agg_Impressions].
  split; apply Zsum_nonneg, List.Forall_forall; intros x Hx;
    apply in_map_iff in Hx as (row & <- & Hrow); apply (H row Hrow).
Qed.

(** C10.  A query present in phase A and absent from phase B has its side B
    zero-filled in the merged frame of the scorecard, [Imp_Delta =
    -Impressions_A <= 0] and [CTR_Delta = -CTR_A <= 0]; it satisfies none of
    the three effectiveness criteria and its outcome category is Others. *)
Theorem lost_query_is_other
  (pa pb : Z) (df_q : list QueryMetricRow) (k : string) :
  (forall row, In row df_q ->
     (0 <= Clicks row)%Z /\ (0 <= Impressions row)%Z) ->
  (exists row, In row df_q /\ Phase_id row = pa /\ Top_Queries row = k) ->
  (forall row, In row df_q -> Phase_id row = pb -> Top_Queries row <> k) ->
  exists r,
    st_merged pa pb df_q !! k = Some r /\
    Clicks_B r = 0%Z /\ Impressions_B r = 0%Z /\ Position_B r = 0 /\
    Imp_Delta r = (- Impressions_A r)%Z /\ (Imp_Delta r <= 0)%Z /\
    Num.equiv (CTR_Delta r) (Num.opp (CTR_A r)) /\
    Num.gtb (CTR_Delta r) 0 = false /\
    is_true_win r = false /\ is_risky r = false /\
    is_ineffective r = false /\
    categorize_outcome r = Others.
Proof.
  intros Hnn Hpres Habs.
  destruct (group_rows_present _ _ _ Hpres) as (a & Ha & Hagg).
  pose proof (group_rows_absent _ _ _ Habs) as Hb.
  assert (Hca : (0 <= agg_Clicks a)%Z /\ (0 <= agg_Impressions a)%Z).
  { subst a. apply agg_nonneg. intros row Hrow.
    apply group_rows_In in Hrow as (Hrow & _). apply Hnn, Hrow. }
  clear Hagg. destruct Hca as [Hc Hi].
  exists (delta_columns (a, zero_agg)).
  split; [rewrite st_merged_lookup, Ha, Hb; reflexivity|].
  assert (Hctr : Num.equiv (Num.sub (Num.Fin 0)
                    (ctr_column (agg_Clicks a) (agg_Impressions a)))
                    (Num.opp (ctr_column (agg_Clicks a) (agg_Impressions a)))
                 /\ Num.gtb (Num.sub (Num.Fin 0)
                      (ctr_column (agg_Clicks a) (agg_Impressions a))) 0
                    = false
                 /\ Num.gtb (Num.sub (Num.Fin 0)
                      (ctr_column (agg_Clicks a) (agg_Impressions a))) 3
                    = false).
  { destruct (ctr_column_nonneg _ _ Hc Hi) as [(q & -> & Hq) | ->].
    - cbn -[Qle_bool Qminus]. split; [ring|]. split; qcases; (reflexivity || lra).
    - cbn. auto. }
  destruct Hctr as (Hopp & Hgt0 & Hgt3).
  assert (Himp : (0 <? 0 - agg_Impressions a)%Z = false)
    by (apply Z.ltb_ge; lia).
  unfold is_true_win, is_risky, is_ineffective, categorize_outcome.
  cbn [delta_columns fst snd zero_agg agg_Clicks agg_Impressions agg_Position
       Clicks_B Impressions_B Position_B Imp_Delta Impressions_A CTR_Delta
       CTR_A Pos_Delta].
  change (ctr_column 0 0) with (Num.Fin 0).
  rewrite Hgt3, Himp, !andb_false_r. cbn [andb].
  repeat split; try reflexivity; try lia; assumption.
Qed.

Lemma lost_query_is_other_witness :
  exists r,
    st_merged 1 2 df_sample !! "y" = Some r /\
    categorize_outcome r = Others.
Proof.
  destruct (lost_query_is_other 1 2 df_sample "y")
    as (r & Hr & _ & _ & _ & _ & _ & _ & _ & _ & _ & _ & Hcat).
  - intros row Hrow. cbn in Hrow.
    repeat (destruct Hrow as [<- | Hrow]; [cbn; lia|]). destruct Hrow.
  - exists (qrow 1 "y" 7 90 3). cbn. tauto.
  - intros row Hrow. cbn in Hrow.
    repeat (destruct Hrow as [<- | Hrow]; [cbn; (lia || discriminate)|]).
    destruct Hrow.
  - exists r. split; assumption.
Defined.

(** ** Exchanging the two phases *)

Lemma Num_equiv_refl (x : fnum) : Num.equiv x x.
Proof. destruct x; cbn; [reflexivity | exact I ..]. Qed.

Lemma Num_sub_opp (x y : fnum) :
  Num.equiv (Num.sub x y) (Num.opp (Num.sub y x)).
Proof. destruct x, y; cbn; try exact I. ring. Qed.

Lemma delta_columns_swap (a b : QueryAgg) :
  row_equiv (delta_columns (b, a)) (swap_negate (delta_columns (a, b))).
Proof.
  unfold row_equiv, swap_negate, delta_columns.
  cbn [fst snd Clicks_A Impressions_A Position_A Clicks_B Impressions_B
       Position_B Click_Delta Imp_Delta CTR_A CTR_B CTR_Delta Pos_Delta].
  repeat match goal with |- _ /\ _ => split end;
    try reflexivity; try lia; try apply Num_equiv_refl.
  - apply Num_sub_opp.
  - ring.
Qed.

(** C6.  For two distinct phases, the delta table with the phases exchanged
    has the same query keys as the original one, and its row for a query is
    the original row with the per-side columns exchanged and with
    [Click_Delta], [Imp_Delta], [CTR_Delta] and [Pos_Delta] negated. *)
Theorem compareQueries_swap
  (pa pb : Z) (df_q : list QueryMetricRow) :
  pa <> pb ->
  exists t t',
    compareQueries pa pb df_q = Some t /\
    compareQueries pb pa df_q = Some t' /\
    dom t' = dom t /\
    forall k,
      match t !! k, t' !! k with
      | Some r, Some r' => row_equiv r' (swap_negate r)
      | None, None => True
      | _, _ => False
      end.
Proof.
  intros Hne. unfold compareQueries.
  destruct (Z.eqb_spec pa pb) as [|_]; [contradiction|].
  destruct (Z.eqb_spec pb pa) as [E|_]; [symmetry in E; contradiction|].
  fold (st_merged pa pb df_q). fold (st_merged pb pa df_q).
  eexists. eexists. split; [reflexivity|]. split; [reflexivity|].
  assert (Hk : forall k,
    match st_merged pa pb df_q !! k, st_merged pb pa df_q !! k with
    | Some r, Some r' => row_equiv r' (swap_negate r)
    | None, None => True
    | _, _ => False
    end).
  { intros k. rewrite !st_merged_lookup.
    destruct (aggregate_queries pa df_q !! k) as [a|],
             (aggregate_queries pb df_q !! k) as [b|];
      cbn [default]; try exact I; apply delta_columns_swap. }
  split; [|exact Hk].
  apply set_eq. intros k. rewrite !elem_of_dom. specialize (Hk k).
  destruct (st_merged pa pb df_q !! k), (st_merged pb pa df_q !! k);
    try contradiction; split; intros [? ?]; eauto; discriminate.
Qed.

Lemma compareQueries_swap_witness :
  exists t t',
    compareQueries 1 2 df_sample = Some t /\
    compareQueries 2 1 df_sample = Some t' /\
    dom t' = dom t.
Proof.
  destruct (compareQueries_swap 1 2 df_sample) as (t & t' & H1 & H2 & Hd & _).
  - lia.
  - exists t, t'. repeat split; assumption.
Defined.

(** * Further properties of the dashboard *)

(** ** Phase summaries *)

(** X1.  The CTR of a phase summary is a finite number for every table: the
    conditional covers every zero (or negative) total of impressions. *)
Theorem phase_ctr_always_finite (p : Z) (df : list DailyMetricRow) :
  let s := calculate_phase_metrics p df in
  exists q, s_CTR s = Num.Fin q /\
    ((s_Impressions s <= 0)%Z -> q = 0) /\
    ((0 < s_Impressions s)%Z ->
     q = inject_Z (s_Clicks s) / inject_Z (s_Impressions s) * 100).
Proof.
  cbv zeta. unfold calculate_phase_metrics.
  cbn [s_CTR s_Impressions s_Clicks].
  set (c := Zsum (map d_Clicks _)). set (i := Zsum (map d_Impressions _)).
  destruct (Z.ltb_spec 0 i) as [Hi | Hi].
  - unfold Num.div. destruct (Z.eqb_spec i 0) as [E | _]; [lia|].
    eexists. split; [reflexivity|]. split; [lia | reflexivity].
  - eexists. split; [reflexivity|]. split; [reflexivity | lia].
Qed.

Lemma Zsum_le (A : Type) (f g : A -> Z) (l : list A) :
  (forall x, In x l -> (f x <= g x)%Z) ->
  (Zsum (map f l) <= Zsum (map g l))%Z.
Proof.
  induction l as [|x l IH]; intros H; unfold Zsum in *; cbn [map fold_right].
  - lia.
  - pose proof (H x (or_introl eq_refl)).
    assert (forall y, In y l -> (f y <= g y)%Z) by (intros; apply H; now right).
    specialize (IH H1). lia.
Qed.

(** X2.  When no day has more clicks than impressions, and none has a negative
    count, the CTR of the phase lies between 0 and 100. *)
Theorem phase_ctr_bounds (p : Z) (df : list DailyMetricRow) :
  (forall r, In r df -> (0 <= d_Clicks r <= d_Impressions r)%Z) ->
  exists q, s_CTR (calculate_phase_metrics p df) = Num.Fin q /\
            0 <= q <= 100.
Proof.
  intros Hrows. unfold calculate_phase_metrics. cbn [s_CTR].
  set (df_phase := List.filter _ df).
  assert (Hin : forall r, In r df_phase ->
                          (0 <= d_Clicks r <= d_Impressions r)%Z).
  { intros r Hr. apply filter_In in Hr as [Hr _]. apply Hrows, Hr. }
  assert (Hc : (0 <= Zsum (map d_Clicks df_phase))%Z).
  { apply Zsum_nonneg, List.Forall_forall. intros x Hx.
    apply in_map_iff in Hx as (r & <- & Hr). apply (Hin r Hr). }
  assert (Hci : (Zsum (map d_Clicks df_phase)
                 <= Zsum (map d_Impressions df_phase))%Z).
  { apply Zsum_le. intros r Hr. apply (Hin r Hr). }
  set (c := Zsum (map d_Clicks df_phase)) in *.
  set (i := Zsum (map d_Impressions df_phase)) in *.
  destruct (Z.ltb_spec 0 i) as [Hi | Hi].
  - unfold Num.div. destruct (Z.eqb_spec i 0) as [E | _]; [lia|].
    eexists. split; [reflexivity|].
    assert (Hq : 0 <= inject_Z c / inject_Z i <= 1).
    { assert (Hi' : 0 < inject_Z i)
        by (change 0 with (inject_Z 0); rewrite <- Zlt_Qlt; lia).
      split.
      - apply Qle_shift_div_l; [exact Hi'|]. rewrite Qmult_0_l.
        change 0 with (inject_Z 0). rewrite <- Zle_Qle. exact Hc.
      - apply Qle_shift_div_r; [exact Hi'|]. rewrite Qmult_1_l.
        rewrite <- Zle_Qle. exact Hci. }
    cbn [Num.mul]. lra.
  - exists 0. split; [reflexivity | lra].
Qed.

Lemma phase_ctr_bounds_witness :
  exists q, s_CTR (calculate_phase_metrics 2 gsc_phase_2) = Num.Fin q /\
            0 <= q <= 100.
Proof.
  apply (phase_ctr_bounds 2 gsc_phase_2).
  intros r Hr. cbn in Hr. destruct Hr as [<- | []]. cbn. lia.
Defined.

(** ** The list of phases *)

Lemma unique_In (l : list Z) (x : Z) : In x (unique l) <-> In x l.
Proof.
  induction l as [|y l IH]; [reflexivity|].
  cbn [unique In]. rewrite filter_In, IH, negb_true_iff, Z.eqb_neq.
  destruct (Z.eq_dec y x); intuition congruence.
Qed.

Lemma unique_NoDup (l : list Z) : List.NoDup (unique l).
Proof.
  induction l as [|y l IH]; cbn [unique]; constructor.
  - rewrite filter_In, negb_true_iff, Z.eqb_neq. intros [_ H]. congruence.
  - apply List.NoDup_filter, IH.
Qed.

Lemma insert_sorted_In (x y : Z) (l : list Z) :
  In y (insert_sorted x l) <-> y = x \/ In y l.
Proof.
  induction l as [|z l IH]; cbn [insert_sorted].
  - cbn. intuition congruence.
  - destruct (x <? z)%Z; cbn [In]; [|rewrite IH]; intuition congruence.
Qed.

Lemma sorted_In (l : list Z) (y : Z) : In y (sorted l) <-> In y l.
Proof.
  induction l as [|x l IH]; [reflexivity|].
  unfold sorted in *. cbn [fold_right In].
  rewrite insert_sorted_In, IH. intuition congruence.
Qed.

Lemma insert_sorted_increasing (x : Z) (l : list Z) :
  StronglySorted Z.lt l -> ~ In x l ->
  StronglySorted Z.lt (insert_sorted x l).
Proof.
  induction 1 as [|z l Hs IH Hz]; intros Hx; cbn [insert_sorted].
  - repeat constructor.
  - destruct (Z.ltb_spec x z) as [Hlt | Hge].
    + constructor; [constructor; assumption|].
      constructor; [exact Hlt|].
      eapply List.Forall_impl; [|exact Hz]. intros a Ha. cbn in Ha. lia.
    + assert (Hne : x <> z) by (intros ->; apply Hx; now left).
      constructor.
      * apply IH. intros Hin. apply Hx. now right.
      * apply List.Forall_forall. intros a Ha.
        apply insert_sorted_In in Ha as [-> | Ha]; [lia|].
        rewrite List.Forall_forall in Hz. apply Hz, Ha.
Qed.

Lemma sorted_increasing (l : list Z) :
  List.NoDup l -> StronglySorted Z.lt (sorted l).
Proof.
  induction 1 as [|x l Hx _ IH]; unfold sorted in *; cbn [fold_right].
  - constructor.
  - apply insert_sorted_increasing; [exact IH|].
    fold (sorted l). rewrite sorted_In. exact Hx.
Qed.

Lemma unique_phases_sorted (domain_gsc : list DailyMetricRow) :
  StronglySorted Z.lt (unique_phases domain_gsc).
Proof.
  unfold unique_phases. apply sorted_increasing, unique_NoDup.
Qed.

Lemma increasing_NoDup (l : list Z) : StronglySorted Z.lt l -> List.NoDup l.
Proof.
  induction 1 as [|x l _ IH Hx]; constructor; [|exact IH].
  intros Hin. rewrite List.Forall_forall in Hx. specialize (Hx x Hin). lia.
Qed.

Lemma unique_phases_NoDup (domain_gsc : list DailyMetricRow) :
  List.NoDup (unique_phases domain_gsc).
Proof. apply increasing_NoDup, unique_phases_sorted. Qed.

Lemma unique_phases_In (domain_gsc : list DailyMetricRow) (p : Z) :
  In p (unique_phases domain_gsc) <->
  exists r, In r domain_gsc /\ d_Phase_id r = p.
Proof.
  unfold unique_phases. rewrite sorted_In, unique_In, in_map_iff.
  split; intros (r & H1 & H2); exists r; split; assumption.
Qed.

(** X3.  The phase selectors list every phase of the domain exactly once, in
    increasing order. *)
Theorem unique_phases_increasing (domain_gsc : list DailyMetricRow) :
  StronglySorted Z.lt (unique_phases domain_gsc) /\
  List.NoDup (unique_phases domain_gsc) /\
  forall p, In p (unique_phases domain_gsc) <->
            exists r, In r domain_gsc /\ d_Phase_id r = p.
Proof.
  split; [apply unique_phases_sorted|].
  split; [apply unique_phases_NoDup|].
  intros p. apply unique_phases_In.
Qed.

Lemma Zsum_indicator (q v : Z) (phases : list Z) :
  List.NoDup phases -> In q phases ->
  Zsum (map (fun p => if (q =? p)%Z then v else 0%Z) phases) = v.
Proof.
  induction 1 as [|p phases Hp Hnd IH]; intros Hin; [destruct Hin|].
  unfold Zsum in *. cbn [map fold_right].
  destruct (Z.eqb_spec q p) as [-> | Hne].
  - assert (Hz : fold_right Z.add 0%Z
             (map (fun p0 => if (p =? p0)%Z then v else 0%Z) phases) = 0%Z).
    { clear IH Hnd Hin. induction phases as [|a l IHl]; [reflexivity|].
      cbn [map fold_right].
      destruct (Z.eqb_spec p a) as [-> | _]; [exfalso; apply Hp; now left|].
      rewrite IHl; [reflexivity|]. intros H. apply Hp. now right. }
    rewrite Hz. lia.
  - destruct Hin as [-> | Hin]; [congruence|]. rewrite (IH Hin). lia.
Qed.

Lemma Zsum_map_add (A : Type) (f g : A -> Z) (l : list A) :
  Zsum (map (fun x => (f x + g x)%Z) l) = (Zsum (map f l) + Zsum (map g l))%Z.
Proof.
  induction l as [|x l IH]; unfold Zsum in *; cbn [map fold_right]; lia.
Qed.

(** Splitting a table by phase loses and repeats nothing. *)
Lemma Zsum_by_phase (f : DailyMetricRow -> Z) (phases : list Z)
  (df : list DailyMetricRow) :
  List.NoDup phases ->
  (forall r, In r df -> In (d_Phase_id r) phases) ->
  Zsum (map (fun p =>
               Zsum (map f (List.filter (fun r => (d_Phase_id r =? p)%Z) df)))
            phases)
  = Zsum (map f df).
Proof.
  intros Hnd. induction df as [|r df IH]; intros Hcov.
  - cbn [List.filter map]. clear. induction phases as [|p l IHl];
      unfold Zsum in *; cbn [map fold_right] in *; [reflexivity | lia].
  - assert (Hcov' : forall x, In x df -> In (d_Phase_id x) phases)
      by (intros; apply Hcov; now right).
    specialize (IH Hcov').
    transitivity
      (Zsum (map (fun p =>
                    ((if (d_Phase_id r =? p)%Z then f r else 0)
                     + Zsum (map f (List.filter
                                      (fun r => (d_Phase_id r =? p)%Z) df)))%Z)
                 phases)).
    + f_equal. apply map_ext. intros p. cbn [List.filter].
      destruct (d_Phase_id r =? p)%Z; unfold Zsum; cbn [map fold_right]; lia.
    + rewrite Zsum_map_add, IH.
      rewrite (Zsum_indicator _ _ _ Hnd (Hcov r (or_introl eq_refl))).
      unfold Zsum. cbn [map fold_right]. lia.
Qed.

(** X4.  The per-phase summaries of the overview tab add up to the whole table:
    the clicks and the impressions of every daily row are counted in exactly
    one phase. *)
Theorem all_phases_metrics_totals (domain_gsc : list DailyMetricRow) :
  Zsum (map s_Clicks (all_phases_metrics domain_gsc))
  = Zsum (map d_Clicks domain_gsc) /\
  Zsum (map s_Impressions (all_phases_metrics domain_gsc))
  = Zsum (map d_Impressions domain_gsc) /\
  map s_Phase_id (all_phases_metrics domain_gsc) = unique_phases domain_gsc.
Proof.
  pose proof (unique_phases_NoDup domain_gsc) as Hnd.
  pose proof (unique_phases_In domain_gsc) as Hin.
  assert (Hcov : forall r, In r domain_gsc ->
                           In (d_Phase_id r) (unique_phases domain_gsc)).
  { intros r Hr. apply Hin. exists r. split; [exact Hr | reflexivity]. }
  unfold all_phases_metrics. rewrite !map_map. cbn [s_Clicks s_Impressions].
  split; [|split].
  - apply (Zsum_by_phase d_Clicks _ _ Hnd Hcov).
  - apply (Zsum_by_phase d_Impressions _ _ Hnd Hcov).
  - cbn [calculate_phase_metrics s_Phase_id]. apply map_id.
Qed.

(** ** Default selection *)

Lemma nth_error_last (l : list Z) (d : Z) :
  l <> [] -> nth_error l (length l - 1) = Some (List.last l d).
Proof.
  induction l as [|x l IH]; [congruence|]. intros _.
  destruct l as [|y l]; [reflexivity|].
  cbn [length List.last] in *. rewrite Nat.sub_succ, Nat.sub_0_r.
  cbn [nth_error]. rewrite <- IH by discriminate.
  cbn [length]. rewrite Nat.sub_succ, Nat.sub_0_r. reflexivity.
Qed.

Lemma last_In (l : list Z) (d : Z) : l <> [] -> In (List.last l d) l.
Proof.
  induction l as [|x l IH]; [congruence|]. intros _.
  destruct l as [|y l]; [now left|].
  right. apply IH. discriminate.
Qed.

Lemma increasing_last (l : list Z) (d : Z) :
  StronglySorted Z.lt l -> forall p, In p l -> (p <= List.last l d)%Z.
Proof.
  induction 1 as [|x l Hs IH Hx]; intros p Hp; [destruct Hp|].
  destruct l as [|y l]; [destruct Hp as [-> | []]; cbn; lia|].
  change (List.last (x :: y :: l) d) with (List.last (y :: l) d).
  destruct Hp as [-> | Hp]; [|apply IH, Hp].
  rewrite List.Forall_forall in Hx.
  pose proof (Hx _ (last_In (y :: l) d ltac:(discriminate))). lia.
Qed.

(** X5.  Before the user changes the selectors, phase A is the smallest phase of
    the domain and phase B the largest.  The two are equal exactly when the
    domain has a single phase, and then the query comparison of the
    comparison tab does not produce a table: its columns are named after
    the phase and clash. *)
Theorem default_phases (domain_gsc : list DailyMetricRow) :
  domain_gsc <> [] ->
  exists a b,
    default_phase_a (unique_phases domain_gsc) = Some a /\
    default_phase_b (unique_phases domain_gsc) = Some b /\
    (forall r, In r domain_gsc -> (a <= d_Phase_id r <= b)%Z) /\
    (a = b <-> length (unique_phases domain_gsc) = 1%nat) /\
    (forall df_q,
       compareQueries a b df_q = None <->
       length (unique_phases domain_gsc) = 1%nat).
Proof.
  intros Hne.
  pose proof (unique_phases_sorted domain_gsc) as Hs.
  pose proof (unique_phases_In domain_gsc) as Hin.
  unfold default_phase_a, default_phase_b, default_index_b.
  destruct (unique_phases domain_gsc) as [|a rest] eqn:E.
  { destruct domain_gsc as [|r df]; [congruence|].
    exfalso. apply (proj2 (Hin (d_Phase_id r))).
    exists r. split; [now left | reflexivity]. }
  set (b := List.last (a :: rest) a).
  assert (Hb : nth_error (a :: rest)
                 (if (1 <? length (a :: rest))%nat
                  then (length (a :: rest) - 1)%nat else 0%nat) = Some b).
  { destruct rest as [|y rest]; [reflexivity|].
    change (1 <? length (a :: y :: rest))%nat with true. cbv iota.
    apply nth_error_last. discriminate. }
  assert (Hab : a = b <-> length (a :: rest) = 1%nat).
  { destruct rest as [|y rest]; [cbn; tauto|].
    split; [|cbn [length]; lia]. intros Heq.
    pose proof (proj2 (StronglySorted_inv Hs)) as Hfa.
    rewrite List.Forall_forall in Hfa.
    pose proof (Hfa _ (last_In (y :: rest) a ltac:(discriminate))) as Hlt.
    unfold b in Heq. change (List.last (a :: y :: rest) a)
      with (List.last (y :: rest) a) in Heq. lia. }
  exists a, b. split; [reflexivity|]. split; [exact Hb|].
  split; [|split; [exact Hab|]].
  - intros r Hr.
    assert (Hp : In (d_Phase_id r) (a :: rest))
      by (apply Hin; exists r; split; [exact Hr | reflexivity]).
    split.
    + pose proof (proj2 (StronglySorted_inv Hs)) as Hfa.
      destruct Hp as [<- | Hp]; [lia|].
      rewrite List.Forall_forall in Hfa. specialize (Hfa _ Hp). lia.
    + apply increasing_last; assumption.
  - intros df_q. rewrite <- Hab. unfold compareQueries.
    destruct (Z.eqb_spec a b); split; intros H; congruence.
Qed.

Lemma default_phases_witness :
  exists a b,
    default_phase_a (unique_phases gsc_phase_2) = Some a /\
    default_phase_b (unique_phases gsc_phase_2) = Some b /\
    compareQueries a b df_sample = None.
Proof.
  destruct (default_phases gsc_phase_2) as (a & b & Ha & Hb & _ & _ & Hc).
  - discriminate.
  - exists a, b. split; [exact Ha|]. split; [exact Hb|].
    apply Hc. reflexivity.
Defined.

(** ** The merged frame *)

Lemma Zsum_nil_groups (A : Type) (keys : list A) :
  Zsum (map (fun _ => 0%Z) keys) = 0%Z.
Proof.
  induction keys as [|k l IH]; unfold Zsum in *; cbn [map fold_right];
    [reflexivity | lia].
Qed.

Lemma Zsum_indicator_key (q : string) (v : Z) (keys : list string) :
  List.NoDup keys -> In q keys ->
  Zsum (map (fun k => if bool_decide (q = k) then v else 0%Z) keys) = v.
Proof.
  induction 1 as [|k keys Hk Hnd IH]; intros Hin; [destruct Hin|].
  unfold Zsum in *. cbn [map fold_right].
  case_bool_decide as E.
  - subst k.
    assert (Hz : fold_right Z.add 0%Z
             (map (fun k => if bool_decide (q = k) then v else 0%Z) keys)
             = 0%Z).
    { clear IH Hnd Hin. induction keys as [|a l IHl]; [reflexivity|].
      cbn [map fold_right]. case_bool_decide as E'.
      - subst a. exfalso. apply Hk. now left.
      - rewrite IHl; [reflexivity|]. intros H. apply Hk. now right. }
    rewrite Hz. lia.
  - destruct Hin as [-> | Hin]; [congruence|]. rewrite (IH Hin). lia.
Qed.

(** Splitting the rows of a phase by query text loses and repeats nothing. *)
Lemma Zsum_by_query (f : QueryMetricRow -> Z) (keys : list string)
  (rows : list QueryMetricRow) :
  List.NoDup keys ->
  (forall r, In r rows -> In (Top_Queries r) keys) ->
  Zsum (map (fun k =>
               Zsum (map f (List.filter
                              (fun r => bool_decide (Top_Queries r = k)) rows)))
            keys)
  = Zsum (map f rows).
Proof.
  intros Hnd. induction rows as [|r rows IH]; intros Hcov.
  - cbn [List.filter map]. apply Zsum_nil_groups.
  - assert (Hcov' : forall x, In x rows -> In (Top_Queries x) keys)
      by (intros; apply Hcov; now right).
    specialize (IH Hcov').
    transitivity
      (Zsum (map (fun k =>
                    ((if bool_decide (Top_Queries r = k) then f r else 0)
                     + Zsum (map f (List.filter
                          (fun r => bool_decide (Top_Queries r = k)) rows)))%Z)
                 keys)).
    + f_equal. apply map_ext. intros k. cbn [List.filter].
      destruct (bool_decide (Top_Queries r = k));
        unfold Zsum; cbn [map fold_right]; lia.
    + rewrite Zsum_map_add, IH.
      rewrite (Zsum_indicator_key _ _ _ Hnd (Hcov r (or_introl eq_refl))).
      unfold Zsum. cbn [map fold_right]. lia.
Qed.

Lemma agg_zero_fill (p : Z) (df_q : list QueryMetricRow) (k : string) :
  agg_Clicks (default zero_agg (aggregate_queries p df_q !! k))
  = Zsum (map Clicks (group_rows p k df_q)) /\
  agg_Impressions (default zero_agg (aggregate_queries p df_q !! k))
  = Zsum (map Impressions (group_rows p k df_q)).
Proof.
  rewrite aggregate_queries_lookup.
  destruct (group_rows p k df_q); split; reflexivity.
Qed.

Lemma st_merged_dom (pa pb : Z) (df_q : list QueryMetricRow) (k : string) :
  k ∈ dom (st_merged pa pb df_q) <->
  exists row, In row df_q /\ Top_Queries row = k /\
              (Phase_id row = pa \/ Phase_id row = pb).
Proof.
  rewrite elem_of_dom, st_merged_lookup, !aggregate_queries_lookup.
  split.
  - intros Hsome.
    destruct (group_rows pa k df_q) as [|r g] eqn:Ea.
    + destruct (group_rows pb k df_q) as [|r g] eqn:Eb.
      { destruct Hsome as [? ?]. discriminate. }
      assert (Hr : In r (group_rows pb k df_q)) by (rewrite Eb; now left).
      apply group_rows_In in Hr as (Hin & Hp & Hk). eauto 6.
    + assert (Hr : In r (group_rows pa k df_q)) by (rewrite Ea; now left).
      apply group_rows_In in Hr as (Hin & Hp & Hk). eauto 6.
  - intros (row & Hin & Hk & [Hp | Hp]).
    + assert (Hr : In row (group_rows pa k df_q))
        by (apply group_rows_In; auto).
      destruct (group_rows pa k df_q); [destruct Hr|].
      destruct (group_rows pb k df_q); eauto.
    + assert (Hr : In row (group_rows pb k df_q))
        by (apply group_rows_In; auto).
      destruct (group_rows pb k df_q); [destruct Hr|].
      destruct (group_rows pa k df_q); eauto.
Qed.

Lemma st_merged_sums (pa pb : Z) (df_q : list QueryMetricRow) (k : string) r :
  st_merged pa pb df_q !! k = Some r ->
  Clicks_A r = Zsum (map Clicks (group_rows pa k df_q)) /\
  Impressions_A r = Zsum (map Impressions (group_rows pa k df_q)) /\
  Clicks_B r = Zsum (map Clicks (group_rows pb k df_q)) /\
  Impressions_B r = Zsum (map Impressions (group_rows pb k df_q)).
Proof.
  rewrite st_merged_lookup.
  pose proof (agg_zero_fill pa df_q k) as [Ha1 Ha2].
  pose proof (agg_zero_fill pb df_q k) as [Hb1 Hb2].
  destruct (aggregate_queries pa df_q !! k),
           (aggregate_queries pb df_q !! k);
    intros [= <-]; cbn [default] in *; auto.
Qed.

(** X6.  The merged frame has one row for every query text that has a row in
    phase A or in phase B, and for no other; its click and impression
    columns are the sums over the rows of the query in each phase, the sum
    over no row being the zero that fills a missing side. *)
Theorem st_merged_keys_and_sums
  (pa pb : Z) (df_q : list QueryMetricRow) (k : string) :
  (k ∈ dom (st_merged pa pb df_q) <->
   exists row, In row df_q /\ Top_Queries row = k /\
               (Phase_id row = pa \/ Phase_id row = pb)) /\
  (forall r, st_merged pa pb df_q !! k = Some r ->
     Clicks_A r = Zsum (map Clicks (group_rows pa k df_q)) /\
     Impressions_A r = Zsum (map Impressions (group_rows pa k df_q)) /\
     Clicks_B r = Zsum (map Clicks (group_rows pb k df_q)) /\
     Impressions_B r = Zsum (map Impressions (group_rows pb k df_q))).
Proof.
  split; [apply st_merged_dom|].
  intros r Hr. apply (st_merged_sums pa pb df_q k r Hr).
Qed.

Lemma frame_In (m : gmap string QueryComparisonRow) (r : QueryComparisonRow) :
  In r (frame m) <-> exists k, m !! k = Some r.
Proof.
  unfold frame. rewrite <- list_elem_of_In, list_elem_of_fmap. split.
  - intros ([k r'] & -> & H). apply elem_of_map_to_list in H. eauto.
  - intros (k & H). exists (k, r). split; [reflexivity|].
    apply elem_of_map_to_list, H.
Qed.

Lemma frame_column_total (f : QueryComparisonRow -> Z)
  (g : QueryMetricRow -> Z) (p pa pb : Z) (df_q : list QueryMetricRow) :
  p = pa \/ p = pb ->
  (forall k r, st_merged pa pb df_q !! k = Some r ->
               f r = Zsum (map g (group_rows p k df_q))) ->
  Zsum (map f (frame (st_merged pa pb df_q)))
  = Zsum (map g (List.filter (fun r => (Phase_id r =? p)%Z) df_q)).
Proof.
  intros Hp Hf. set (m := st_merged pa pb df_q) in *.
  rewrite <- (Zsum_by_query g (map_to_list m).*1).
  - unfold frame. rewrite <- !list_fmap_compose.
    f_equal. apply map_ext_in. intros [k r] Hkr. cbn.
    apply list_elem_of_In, elem_of_map_to_list in Hkr.
    apply (Hf k r Hkr).
  - apply NoDup_ListNoDup, NoDup_fst_map_to_list.
  - intros r Hr. apply filter_In in Hr as [Hr Hph]. apply Z.eqb_eq in Hph.
    assert (Hd : Top_Queries r ∈ dom m).
    { apply (st_merged_dom pa pb df_q (Top_Queries r)).
      exists r. split; [exact Hr|]. split; [reflexivity|].
      destruct Hp; subst; auto. }
    apply elem_of_dom in Hd as [v Hv].
    apply list_elem_of_In, list_elem_of_fmap. exists (Top_Queries r, v).
    split; [reflexivity|]. apply elem_of_map_to_list, Hv.
Qed.

(** X7.  The click and impression deltas of the merged frame add up to the
    difference between the totals of the two phases in the query table. *)
Theorem merged_delta_totals (pa pb : Z) (df_q : list QueryMetricRow) :
  let df := frame (st_merged pa pb df_q) in
  let rows_of p := List.filter (fun r => (Phase_id r =? p)%Z) df_q in
  Zsum (map Click_Delta df)
  = (Zsum (map Clicks (rows_of pb)) - Zsum (map Clicks (rows_of pa)))%Z /\
  Zsum (map Imp_Delta df)
  = (Zsum (map Impressions (rows_of pb))
     - Zsum (map Impressions (rows_of pa)))%Z.
Proof.
  cbv zeta.
  assert (Hsub : forall (f g : QueryComparisonRow -> Z) l,
            Zsum (map (fun r => (f r - g r)%Z) l)
            = (Zsum (map f l) - Zsum (map g l))%Z).
  { intros f g l. induction l as [|x l IH]; unfold Zsum in *;
      cbn [map fold_right]; lia. }
  assert (Hrow : forall k r, st_merged pa pb df_q !! k = Some r ->
            Click_Delta r = (Clicks_B r - Clicks_A r)%Z /\
            Imp_Delta r = (Impressions_B r - Impressions_A r)%Z).
  { intros k r Hr. apply st_merged_row in Hr as (a & b & -> & _).
    split; reflexivity. }
  assert (Hcols : forall r, In r (frame (st_merged pa pb df_q)) ->
            Click_Delta r = (Clicks_B r - Clicks_A r)%Z /\
            Imp_Delta r = (Impressions_B r - Impressions_A r)%Z).
  { intros r Hr. apply frame_In in Hr as [k Hk]. apply (Hrow k r Hk). }
  split.
  - rewrite (map_ext_in Click_Delta (fun r => (Clicks_B r - Clicks_A r)%Z))
      by (intros r Hr; apply (Hcols r Hr)).
    rewrite Hsub. f_equal.
    + apply (frame_column_total Clicks_B Clicks pb); [auto|].
      intros k r Hr. apply (st_merged_sums pa pb df_q k r Hr).
    + apply (frame_column_total Clicks_A Clicks pa); [auto|].
      intros k r Hr. apply (st_merged_sums pa pb df_q k r Hr).
  - rewrite (map_ext_in Imp_Delta
               (fun r => (Impressions_B r - Impressions_A r)%Z))
      by (intros r Hr; apply (Hcols r Hr)).
    rewrite Hsub. f_equal.
    + apply (frame_column_total Impressions_B Impressions pb); [auto|].
      intros k r Hr. apply (st_merged_sums pa pb df_q k r Hr).
    + apply (frame_column_total Impressions_A Impressions pa); [auto|].
      intros k r Hr. apply (st_merged_sums pa pb df_q k r Hr).
Qed.

(** ** Comparing a phase with itself *)

Lemma Num_sub_self_gtb (x : fnum) (c : Q) :
  0 <= c -> Num.gtb (Num.sub x x) c = false.
Proof.
  intros Hc. destruct x; cbn -[Qle_bool Qminus]; try reflexivity.
  qcases; [reflexivity | lra].
Qed.

Lemma self_comparison_row (a : QueryAgg) :
  let r := delta_columns (a, a) in
  Click_Delta r = 0%Z /\ Imp_Delta r = 0%Z /\ Pos_Delta r == 0 /\
  Num.gtb (CTR_Delta r) 3 = false /\
  is_true_win r = false /\ is_risky r = false /\ is_ineffective r = false /\
  categorize_outcome r = Others /\ categorize_tier_enhanced r = No_Change.
Proof.
  cbv zeta.
  assert (Hg : Num.gtb (CTR_Delta (delta_columns (a, a))) 3 = false)
    by (apply Num_sub_self_gtb; lra).
  assert (Hp : Pos_Delta (delta_columns (a, a)) == 0)
    by (rewrite Pos_Delta_columns; ring).
  unfold is_true_win, is_risky, is_ineffective, categorize_outcome,
    categorize_tier_enhanced.
  rewrite Hg. cbn [andb].
  cbn [delta_columns fst snd Click_Delta Imp_Delta Position_A Position_B].
  set (d := Pos_Delta _) in *. clearbody d.
  destruct a as [ca ia pos]. cbn [agg_Position agg_Clicks agg_Impressions].
  rewrite !Z.sub_diag.
  qcases; repeat split; try reflexivity; try lra.
Qed.

(** X8.  In the strategy tab a phase can be compared with itself; then every
    delta is zero, no row is a True Win, a Risk or Wasted, and the scorecard,
    when there is one, reports three zero counts and no crash. *)
Theorem strategy_self_comparison (p : Z) (df_q : list QueryMetricRow) :
  (forall k r, st_merged p p df_q !! k = Some r ->
     Click_Delta r = 0%Z /\ Imp_Delta r = 0%Z /\ Pos_Delta r == 0 /\
     categorize_outcome r = Others) /\
  (forall sc, strategy_scorecard (frame (st_merged p p df_q)) = Some sc ->
     sc_count_wins sc = 0%nat /\ sc_count_risk sc = 0%nat /\
     sc_count_ineffective sc = 0%nat /\ sc_is_crash sc = false).
Proof.
  assert (Hrow : forall k r, st_merged p p df_q !! k = Some r ->
            exists a, r = delta_columns (a, a)).
  { intros k r. rewrite st_merged_lookup.
    destruct (aggregate_queries p df_q !! k); [|discriminate].
    intros [= <-]. eauto. }
  split.
  - intros k r Hr. destruct (Hrow k r Hr) as [a ->].
    pose proof (self_comparison_row a) as H. cbv zeta in H. tauto.
  - intros sc. unfold strategy_scorecard.
    set (df := st_analysis_df (frame (st_merged p p df_q))).
    assert (Hdf : forall r, In r df ->
              is_true_win r = false /\ is_risky r = false /\
              is_ineffective r = false).
    { intros r Hr. apply filter_In in Hr as [Hr _].
      apply frame_In in Hr as [k Hk]. destruct (Hrow k r Hk) as [a ->].
      pose proof (self_comparison_row a) as H. cbv zeta in H. tauto. }
    assert (Hw : true_wins_df df = [])
      by (apply filter_none; intros r Hr; apply (Hdf r Hr)).
    assert (Hr : risky_df df = [])
      by (apply filter_none; intros r Hr; apply (Hdf r Hr)).
    assert (Hi : ineffective_df df = [])
      by (apply filter_none; intros r Hr'; apply (Hdf r Hr')).
    destruct (length df =? 0)%nat; [discriminate|].
    intros [= <-]. cbn [sc_count_wins sc_count_risk sc_count_ineffective
                        sc_is_crash].
    rewrite Hw, Hr, Hi. repeat split; try reflexivity.
    apply is_crash_no_risk, Hr.
Qed.

Lemma strategy_self_comparison_witness :
  exists sc,
    strategy_scorecard (frame (st_merged 1 1 df_sample)) = Some sc /\
    sc_count_wins sc = 0%nat /\ sc_is_crash sc = false.
Proof.
  destruct (strategy_scorecard (frame (st_merged 1 1 df_sample)))
    as [sc|] eqn:E; [|vm_compute in E; discriminate].
  exists sc. split; [reflexivity|].
  destruct (proj2 (strategy_self_comparison 1 df_sample) sc E)
    as (H1 & _ & _ & H4).
  split; assumption.
Defined.

(** ** Queries that appear in the comparison phase *)

Lemma Qsum_pos (l : list Q) :
  l <> [] -> Forall (fun x => 0 < x) l -> 0 < Qsum l.
Proof.
  intros Hne Hl. destruct Hl as [|x l Hx Hl]; [congruence|].
  assert (0 <= Qsum l).
  { apply Qsum_nonneg. eapply List.Forall_impl; [|exact Hl].
    intros a Ha. cbn in Ha. lra. }
  unfold Qsum in *. cbn [fold_right]. lra.
Qed.

Lemma aggregate_position_pos (p : Z) (df_q : list QueryMetricRow) k a :
  (forall row, In row df_q -> 0 < Position row) ->
  aggregate_queries p df_q !! k = Some a ->
  0 < agg_Position a.
Proof.
  intros Hpos. rewrite aggregate_queries_lookup.
  destruct (group_rows p k df_q) as [|r g] eqn:E; [discriminate|].
  intros [= <-]. cbn [agg agg_Position]. unfold group_mean.
  apply Qlt_shift_div_l.
  - unfold Qnat. change 0 with (inject_Z 0). rewrite <- Zlt_Qlt.
    cbn [map length]. lia.
  - rewrite Qmult_0_l. apply Qsum_pos; [discriminate|].
    apply List.Forall_forall. intros x Hx.
    apply in_map_iff in Hx as (row & <- & Hrow).
    apply Hpos. rewrite <- E in Hrow.
    apply group_rows_In in Hrow as (Hrow & _). exact Hrow.
Qed.

(** X9.  A query absent from phase A and present in phase B, over a fact table
    with positive positions and non-negative counts: side A is zero-filled,
    the deltas are the values of side B, [Pos_Delta] is the position of B
    minus 100, the tier is Tier S (New Rank), and the outcome is True Win
    exactly when the new position is better than 100 and the query has an
    impression. *)
Theorem new_query_row
  (pa pb : Z) (df_q : list QueryMetricRow) (k : string) :
  (forall row, In row df_q -> 0 < Position row) ->
  (forall row, In row df_q -> Phase_id row = pa -> Top_Queries row <> k) ->
  (exists row, In row df_q /\ Phase_id row = pb /\ Top_Queries row = k) ->
  exists r,
    st_merged pa pb df_q !! k = Some r /\
    Clicks_A r = 0%Z /\ Impressions_A r = 0%Z /\ Position_A r = 0 /\
    Click_Delta r = Clicks_B r /\ Imp_Delta r = Impressions_B r /\
    CTR_A r = Num.Fin 0 /\
    Pos_Delta r == Position_B r - 100 /\
    categorize_tier_enhanced r = Tier_S_New_Rank /\
    (categorize_outcome r = True_Win <->
     Position_B r < 100 /\ (0 < Impressions_B r)%Z).
Proof.
  intros Hpos Habs Hpres.
  destruct (group_rows_present _ _ _ Hpres) as (b & Hb & _).
  pose proof (group_rows_absent _ _ _ Habs) as Ha.
  pose proof (aggregate_position_pos _ _ _ _ Hpos Hb) as Hpb.
  exists (delta_columns (zero_agg, b)).
  split; [rewrite st_merged_lookup, Ha, Hb; reflexivity|].
  destruct b as [cb ib pos_b]. cbn [agg_Position] in Hpb.
  unfold categorize_tier_enhanced, categorize_outcome, delta_columns,
    replace_zero, MAX_RANK.
  cbn -[Qle_bool Qeq_bool Qminus Z.sub Z.ltb].
  rewrite !Z.sub_0_r.
  repeat match goal with |- _ /\ _ => split end; try reflexivity.
  - qcases; lra.
  - qcases; try reflexivity; lra.
  - destruct (Z.ltb_spec 0 ib) as [Hi | Hi], (Num.gtb _ 3); qcases;
      (split;
       [ intros Hw; try discriminate; split; (lra || lia)
       | intros [H1 H2]; try reflexivity; exfalso; (lra || lia) ]).
Qed.

Lemma new_query_row_witness :
  exists r,
    st_merged 1 2 df_sample !! "x" = Some r /\
    categorize_outcome r = True_Win.
Proof.
  destruct (new_query_row 1 2 df_sample "x")
    as (r & Hr & _ & _ & _ & _ & _ & _ & _ & _ & Hout).
  - intros row Hrow. cbn in Hrow.
    repeat (destruct Hrow as [<- | Hrow]; [vm_compute; reflexivity|]).
    destruct Hrow.
  - intros row Hrow. cbn in Hrow.
    repeat (destruct Hrow as [<- | Hrow]; [cbn; (lia || discriminate)|]).
    destruct Hrow.
  - exists (qrow 2 "x" 3 40 5). cbn. tauto.
  - exists r. split; [exact Hr|]. apply Hout.
    rewrite st_merged_lookup in Hr. vm_compute in Hr.
    injection Hr as <-. split; [vm_compute; reflexivity | cbn; lia].
Defined.

(** ** More on the tier cascade *)

(** X10.  The movement every label stands for, read off the cascade: the bounds
    on the positions and on [Pos_Delta] of a row with that label. *)
Theorem tier_label_ranges (r : QueryComparisonRow) :
  let pos_a := Position_A r in
  let pos_b := Position_B r in
  let delta := Pos_Delta r in
  match categorize_tier_enhanced r with
  | Tier_S_New_Rank => pos_a == 0 /\ 0 < pos_b
  | Tier_Spp_Top_3_Win => 3 < pos_a /\ 0 < pos_b <= 3
  | Tier_Sp_Jump_10 => delta <= -10
  | Tier_A_Top_10_Solid => 0 < pos_b <= 10 /\ -10 < delta <= -3
  | Tier_B_General_Jump =>
      -10 < delta < 0 /\ (pos_b <= 0 \/ 10 < pos_b \/ -3 < delta)
  | Decliner_S_Crash_Lost => 10 <= delta
  | Decliner_A_Top_10_Drop => pos_a <= 10 /\ 3 <= delta < 10
  | Decliner_B_General_Drop => 0 < delta < 10 /\ (10 < pos_a \/ delta < 3)
  | No_Change => delta == 0
  end.
Proof.
  cbv zeta. unfold categorize_tier_enhanced.
  destruct r as [ca ia pos_a cb ib pos_b cd idl ctra ctrb ctrd delta].
  cbn -[Qle_bool Qeq_bool].
  qcases; repeat split; try lra;
    try (left; lra); try (right; left; lra); try (right; right; lra);
    try (right; lra).
Qed.

(** X11.  A query that lost its rank in phase B (position 0 after ranking in A).
    It is a Decliner S (Crash/Lost) when it ranked at 90 or better; ranked
    between 90 and 100 it is only a Decliner B, at exactly 100 it is
    'No Change', and ranked beyond 100 it is labelled as an improver. *)
Theorem lost_rank_tier (a b : QueryAgg) :
  let r := delta_columns (a, b) in
  agg_Position b == 0 -> 0 < agg_Position a ->
  Pos_Delta r == 100 - agg_Position a /\
  (agg_Position a <= 90 ->
   categorize_tier_enhanced r = Decliner_S_Crash_Lost) /\
  (90 < agg_Position a -> agg_Position a < 100 ->
   categorize_tier_enhanced r = Decliner_B_General_Drop) /\
  (agg_Position a == 100 -> categorize_tier_enhanced r = No_Change) /\
  (100 < agg_Position a ->
   categorize_tier_enhanced r = Tier_B_General_Jump \/
   categorize_tier_enhanced r = Tier_Sp_Jump_10).
Proof.
  cbv zeta. destruct a as [ca ia pos_a], b as [cb ib pos_b].
  unfold categorize_tier_enhanced, delta_columns, replace_zero, MAX_RANK.
  cbn -[Qle_bool Qeq_bool Qminus]. intros Hb Ha.
  refine (conj _ (conj _ (conj _ (conj _ _)))).
  - qcases; lra.
  - intros H. qcases; try reflexivity; lra.
  - intros H1 H2. qcases; try reflexivity; lra.
  - intros H. qcases; try reflexivity; lra.
  - intros H. qcases; try (left; reflexivity); try (right; reflexivity); lra.
Qed.

Lemma lost_rank_tier_witness :
  categorize_tier_enhanced (pos_row 3 0) = Decliner_S_Crash_Lost /\
  (categorize_tier_enhanced (pos_row 105 0) = Tier_B_General_Jump \/
   categorize_tier_enhanced (pos_row 105 0) = Tier_Sp_Jump_10).
Proof.
  split.
  - refine (proj1 (proj2 (lost_rank_tier (side_at 3) (side_at 0) _ _)) _);
      vm_compute; (reflexivity || discriminate).
  - refine (proj2 (proj2 (proj2 (proj2
      (lost_rank_tier (side_at 105) (side_at 0) _ _)))) _);
      vm_compute; reflexivity.
Defined.

(** ** Tier summary *)

Lemma tier_count_partition (df : list KeyedRow) :
  (total_improvers df + total_decliners df + count_no_change df)%nat
  = length df.
Proof.
  unfold total_improvers, total_decliners, count_tier_s_all, count_tier_a,
    count_tier_b, count_crash, count_major_drop, count_minor_drop,
    count_no_change, tier_count.
  induction df as [|r df IH]; [reflexivity|].
  cbn [List.filter length].
  destruct (categorize_tier_enhanced r.2);
    repeat case_bool_decide; try congruence; cbn [length]; lia.
Qed.


Lemma Qnat_pos (n : nat) : (0 < n)%nat -> 0 < Qnat n.
Proof.
  intros H. unfold Qnat. change 0 with (inject_Z 0).
  rewrite <- Zlt_Qlt. lia.
Qed.

(** X12.  The hero figures of the tier tab: improvers, decliners and unchanged
    queries partition the analysed keywords, so neither the improvers nor
    the decliners outnumber them; when no keyword is analysed both ratios
    are 0 and nothing is divided. *)
Theorem tier_summary_partition (tier_merged : list KeyedRow) :
  let df := tier_analysis_df tier_merged in
  (total_improvers df + total_decliners df + count_no_change df)%nat
  = length df /\
  (total_improvers df <= length df)%nat /\
  (total_decliners df <= length df)%nat /\
  (df = [] ->
   win_rate df = PrimFloat.zero /\ loss_rate df = PrimFloat.zero).
Proof.
  intros df. pose proof (tier_count_partition df) as Hp.
  split; [exact Hp|]. split; [lia|]. split; [lia|].
  intros E. unfold win_rate, loss_rate, tier_rate. rewrite E.
  split; reflexivity.
Qed.

Lemma Nsum_filter_pos (l : list (string * nat * string)) :
  list_sum (map (fun s => s.1.2) (List.filter (fun s => (0 <? s.1.2)%nat) l))
  = list_sum (map (fun s => s.1.2) l).
Proof.
  induction l as [|s l IH]; [reflexivity|].
  unfold list_sum in *.
  cbn [List.filter]. destruct (Nat.ltb_spec 0 s.1.2) as [H | H];
    cbn [map fold_right]; lia.
Qed.

(** X13.  The tier pie chart: its slices are all positive and add up to the
    number of analysed keywords, so the chart is replaced by "No data to
    visualize" exactly when no keyword is analysed. *)
Theorem tier_chart_values (tier_merged : list KeyedRow) :
  let df := tier_analysis_df tier_merged in
  Forall (fun v => (0 < v)%nat) (chart_values df) /\
  list_sum (chart_values df) = length df /\
  (chart_values df = [] <-> df = []).
Proof.
  intros df.
  assert (Hpos : Forall (fun v => (0 < v)%nat) (chart_values df)).
  { unfold chart_values, chart_data. apply List.Forall_forall. intros v Hv.
    apply in_map_iff in Hv as (s & <- & Hs).
    apply filter_In in Hs as [_ Hs]. apply Nat.ltb_lt, Hs. }
  assert (Hsum : list_sum (chart_values df) = length df).
  { unfold chart_values, chart_data. rewrite Nsum_filter_pos.
    rewrite <- (tier_count_partition df).
    unfold pie_slices, total_improvers, total_decliners.
    unfold list_sum. cbn [map fold_right fst snd]. lia. }
  split; [exact Hpos|]. split; [exact Hsum|]. split.
  - intros E. rewrite E in Hsum. cbn in Hsum.
    destruct df; [reflexivity | discriminate].
  - intros E. destruct (chart_values df) as [|v l] eqn:Ev; [reflexivity|].
    rewrite E in Hsum. unfold list_sum in Hsum.
    cbn [length fold_right] in Hsum.
    inversion Hpos; subst. lia.
Qed.

(** ** Sorted tables *)

Lemma col_order_trans by_col ascending (x y z : KeyedRow) :
  col_order by_col ascending x y -> col_order by_col ascending y z ->
  col_order by_col ascending x z.
Proof. unfold col_order. destruct ascending; intros; lra. Qed.

Lemma skipn_In (s : list KeyedRow) (n : nat) (y : KeyedRow) :
  In y (skipn n s) -> In y s.
Proof.
  revert s. induction n as [|n IH]; intros s Hy; [exact Hy|].
  destruct s as [|a s]; [destruct Hy|]. right. apply IH, Hy.
Qed.

Lemma sorted_firstn_skipn (R : KeyedRow -> KeyedRow -> Prop)
  (s : list KeyedRow) (n : nat) :
  StronglySorted R s ->
  forall x y, In x (firstn n s) -> In y (skipn n s) -> R x y.
Proof.
  intros Hs. revert n. induction Hs as [|a s Hs IH Ha]; intros n x y Hx Hy.
  - rewrite firstn_nil in Hx. destruct Hx.
  - destruct n as [|n]; [destruct Hx|].
    cbn [firstn skipn] in Hx, Hy. destruct Hx as [<- | Hx].
    + rewrite List.Forall_forall in Ha. apply Ha.
      apply (skipn_In _ _ _ Hy).
    + apply (IH n x y Hx Hy).
Qed.

Lemma firstn_is_top sort_values by_col ascending n df :
  sort_values_spec sort_values ->
  is_top by_col ascending n df (firstn n (sort_values by_col ascending df)).
Proof.
  intros Hspec. destruct (Hspec by_col ascending df) as [Hperm Hsorted].
  split.
  - rewrite length_firstn, (Permutation_length Hperm). reflexivity.
  - exists (skipn n (sort_values by_col ascending df)). split.
    + rewrite firstn_skipn. exact Hperm.
    + intros x y Hx Hy.
      apply (sorted_firstn_skipn _ _ n Hsorted x y Hx Hy).
Qed.

Lemma insert_by_perm by_col ascending x l :
  Permutation (insert_by by_col ascending x l) (x :: l).
Proof.
  induction l as [|y l IH]; cbn [insert_by]; [reflexivity|].
  destruct (if ascending then _ else _); [reflexivity|].
  rewrite IH. apply perm_swap.
Qed.

Lemma insert_by_sorted by_col ascending x l :
  StronglySorted (col_order by_col ascending) l ->
  StronglySorted (col_order by_col ascending) (insert_by by_col ascending x l).
Proof.
  induction 1 as [|y l Hs IH Hy]; cbn [insert_by].
  - repeat constructor.
  - destruct (if ascending then _ else _) eqn:E.
    + assert (Hxy : col_order by_col ascending x y).
      { unfold col_order. destruct ascending; apply Qle_bool_iff, E. }
      constructor; [constructor; assumption|].
      constructor; [exact Hxy|].
      eapply List.Forall_impl; [|exact Hy].
      intros a Ha. eapply col_order_trans; eassumption.
    + assert (Hyx : col_order by_col ascending y x).
      { unfold col_order. destruct ascending;
          destruct (Qle_bool_spec (by_col x) (by_col y));
          destruct (Qle_bool_spec (by_col y) (by_col x));
          try discriminate; lra. }
      constructor; [exact IH|].
      apply List.Forall_forall. intros a Ha.
      apply (Permutation_in _ (insert_by_perm by_col ascending x l)) in Ha.
      destruct Ha as [<- | Ha]; [exact Hyx|].
      rewrite List.Forall_forall in Hy. apply Hy, Ha.
Qed.

Lemma insertion_sort_spec : sort_values_spec insertion_sort.
Proof.
  intros by_col ascending l. unfold insertion_sort. split.
  - induction l as [|x l IH]; cbn [fold_right]; [reflexivity|].
    rewrite insert_by_perm, IH. reflexivity.
  - induction l as [|x l IH]; cbn [fold_right]; [constructor|].
    apply (insert_by_sorted by_col ascending x _ IH).
Qed.

(** X14.  The four mover tables of the comparison tab are top-[max_rows]
    selections: the gainers hold the largest click (impression) deltas of
    the merged frame and the losers the smallest, whatever the sorting
    routine does with equal deltas. *)
Theorem query_movers_top sort_values (max_rows : nat) (df : list KeyedRow) :
  sort_values_spec sort_values ->
  is_top col_Click_Delta false max_rows df
    (top_gainers_click sort_values max_rows df) /\
  is_top col_Click_Delta true max_rows df
    (top_losers_click sort_values max_rows df) /\
  is_top col_Imp_Delta false max_rows df
    (top_gainers_imp sort_values max_rows df) /\
  is_top col_Imp_Delta true max_rows df
    (top_losers_imp sort_values max_rows df).
Proof.
  intros Hspec. repeat split; apply firstn_is_top, Hspec.
Qed.

Lemma query_movers_top_witness :
  is_top col_Click_Delta false 2 keyed_sample
    (top_gainers_click insertion_sort 2 keyed_sample).
Proof.
  exact (proj1 (query_movers_top insertion_sort 2 keyed_sample
                  insertion_sort_spec)).
Defined.

(** X15.  The mover tables do not look at the sign of the delta: when the merged
    frame has no more than [max_rows] queries, the gainers table and the
    losers table both list every query of the frame. *)
Theorem query_movers_small_frame sort_values (max_rows : nat)
  (df : list KeyedRow) :
  sort_values_spec sort_values ->
  (length df <= max_rows)%nat ->
  Permutation (top_gainers_click sort_values max_rows df) df /\
  Permutation (top_losers_click sort_values max_rows df) df /\
  Permutation (top_gainers_imp sort_values max_rows df) df /\
  Permutation (top_losers_imp sort_values max_rows df) df.
Proof.
  intros Hspec Hlen.
  assert (H : forall by_col ascending,
            Permutation (firstn max_rows (sort_values by_col ascending df)) df).
  { intros by_col ascending.
    destruct (Hspec by_col ascending df) as [Hperm _].
    rewrite firstn_all2; [exact Hperm|].
    rewrite (Permutation_length Hperm). exact Hlen. }
  unfold top_gainers_click, top_losers_click, top_gainers_imp, top_losers_imp.
  repeat split; apply H.
Qed.

Lemma query_movers_small_frame_witness :
  Permutation (top_gainers_click insertion_sort 10 keyed_sample)
              (top_losers_click insertion_sort 10 keyed_sample).
Proof.
  destruct (query_movers_small_frame insertion_sort 10 keyed_sample
              insertion_sort_spec) as (Hg & Hl & _).
  - vm_compute. lia.
  - rewrite Hg, Hl. reflexivity.
Defined.

Lemma tier_members_count (label : TierLabel) (df : list KeyedRow) :
  length (tier_members [label] df) = tier_count label df.
Proof.
  unfold tier_members, tier_count. f_equal. apply filter_ext. intros r.
  apply bool_decide_ext. rewrite list_elem_of_singleton. reflexivity.
Qed.

Lemma s_tiers_count (df : list KeyedRow) :
  length (tier_members s_tiers df) = count_tier_s_all df.
Proof.
  unfold tier_members, count_tier_s_all, tier_count, s_tiers.
  induction df as [|r df IH]; [reflexivity|].
  cbn [List.filter]. destruct (categorize_tier_enhanced r.2) eqn:E;
    repeat case_bool_decide; try congruence;
    repeat match goal with
      | H : _ ∈ _ |- _ => apply list_elem_of_In in H; cbn in H
      | H : ¬ _ ∈ _ |- _ => rewrite list_elem_of_In in H; cbn in H
      end;
    try (intuition congruence); cbn [length]; lia.
Qed.

(** X16.  The expanders of the tier tab: the count in every title is the count of
    the summary above, and every table is the top 50 of its tier by
    [Pos_Delta], most negative first for the improvers and most positive
    first for the decliners. *)
Theorem tier_tables sort_values (tier_merged : list KeyedRow) :
  sort_values_spec sort_values ->
  let df := tier_analysis_df tier_merged in
  (length (df_s_combined sort_values df) = count_tier_s_all df /\
   length (df_a sort_values df) = count_tier_a df /\
   length (df_b sort_values df) = count_tier_b df /\
   length (df_d_s sort_values df) = count_crash df /\
   length (df_d_a sort_values df) = count_major_drop df /\
   length (df_d_b sort_values df) = count_minor_drop df) /\
  is_top col_Pos_Delta true 50 (tier_members s_tiers df)
    (tier_table (df_s_combined sort_values) df) /\
  is_top col_Pos_Delta true 50 (tier_members [Tier_A_Top_10_Solid] df)
    (tier_table (df_a sort_values) df) /\
  is_top col_Pos_Delta true 50 (tier_members [Tier_B_General_Jump] df)
    (tier_table (df_b sort_values) df) /\
  is_top col_Pos_Delta false 50 (tier_members [Decliner_S_Crash_Lost] df)
    (tier_table (df_d_s sort_values) df) /\
  is_top col_Pos_Delta false 50 (tier_members [Decliner_A_Top_10_Drop] df)
    (tier_table (df_d_a sort_values) df) /\
  is_top col_Pos_Delta false 50 (tier_members [Decliner_B_General_Drop] df)
    (tier_table (df_d_b sort_values) df).
Proof.
  intros Hspec df.
  assert (Hlen : forall tiers ascending,
            length (tier_frame sort_values tiers ascending df)
            = length (tier_members tiers df)).
  { intros tiers ascending. unfold tier_frame.
    apply Permutation_length, Hspec. }
  split.
  - unfold df_s_combined, df_a, df_b, df_d_s, df_d_a, df_d_b,
      count_tier_a, count_tier_b, count_crash, count_major_drop,
      count_minor_drop.
    rewrite !Hlen, s_tiers_count, !tier_members_count. repeat split.
  - unfold tier_table, df_s_combined, df_a, df_b, df_d_s, df_d_a, df_d_b,
      tier_frame.
    repeat split; apply firstn_is_top, Hspec.
Qed.

Lemma tier_tables_witness :
  let df := tier_analysis_df keyed_sample in
  length (df_s_combined insertion_sort df) = count_tier_s_all df.
Proof.
  exact (proj1 (proj1 (tier_tables insertion_sort keyed_sample
                         insertion_sort_spec))).
Defined.

(** ** More on the scorecard *)

Lemma is_true_win_outcome (r : QueryComparisonRow) :
  is_true_win r = bool_decide (categorize_outcome r = True_Win).
Proof.
  destruct (categorize_outcome_priority r) as (H1 & _).
  destruct (is_true_win r); symmetry.
  - apply bool_decide_eq_true. apply H1. reflexivity.
  - apply bool_decide_eq_false. rewrite H1. discriminate.
Qed.

Lemma is_risky_outcome (r : QueryComparisonRow) :
  is_risky r = bool_decide (categorize_outcome r = Risk_Drop).
Proof.
  destruct (categorize_outcome_priority r) as (_ & H2 & _).
  destruct (criteria_pairwise_exclusive r) as (E & _).
  destruct (is_risky r) eqn:Hr; symmetry.
  - apply bool_decide_eq_true. apply H2.
    rewrite andb_true_r in E. split; [exact E | reflexivity].
  - apply bool_decide_eq_false. rewrite H2. intros [_ H]. discriminate.
Qed.

Lemma is_ineffective_outcome (r : QueryComparisonRow) :
  is_ineffective r = bool_decide (categorize_outcome r = Wasted).
Proof.
  destruct (categorize_outcome_priority r) as (_ & _ & H3 & _).
  destruct (criteria_pairwise_exclusive r) as (_ & E1 & E2).
  destruct (is_ineffective r) eqn:Hr; symmetry.
  - apply bool_decide_eq_true. apply H3.
    rewrite andb_true_r in E1, E2. repeat split; assumption.
  - apply bool_decide_eq_false. rewrite H3. intros (_ & _ & H). discriminate.
Qed.

(** X17.  The three counts of the scorecard are the counts of the outcome
    categories True Win, Risk and Wasted of the scatter plot, and they never
    exceed the population together. *)
Theorem scorecard_counts_are_outcomes
  (st : list QueryComparisonRow) (sc : Scorecard) :
  strategy_scorecard st = Some sc ->
  let df := st_analysis_df st in
  sc_count_wins sc = count_outcome True_Win df /\
  sc_count_risk sc = count_outcome Risk_Drop df /\
  sc_count_ineffective sc = count_outcome Wasted df /\
  (sc_count_wins sc + sc_count_risk sc + sc_count_ineffective sc
   + count_outcome Others df)%nat = sc_total_queries sc /\
  (sc_count_wins sc + sc_count_risk sc + sc_count_ineffective sc
   <= sc_total_queries sc)%nat.
Proof.
  intros H df. unfold strategy_scorecard in H. fold df in H.
  destruct (Nat.eqb_spec (length df) 0) as [|Hn]; [discriminate|].
  injection H as <-.
  cbn [sc_count_wins sc_count_risk sc_count_ineffective sc_total_queries].
  assert (Hw : length (true_wins_df df) = count_outcome True_Win df).
  { unfold true_wins_df, count_outcome. f_equal. apply filter_ext.
    apply is_true_win_outcome. }
  assert (Hr : length (risky_df df) = count_outcome Risk_Drop df).
  { unfold risky_df, count_outcome. f_equal. apply filter_ext.
    apply is_risky_outcome. }
  assert (Hi : length (ineffective_df df) = count_outcome Wasted df).
  { unfold ineffective_df, count_outcome. f_equal. apply filter_ext.
    apply is_ineffective_outcome. }
  pose proof (count_outcome_partition df) as Hp.
  rewrite Hw, Hr, Hi.
  refine (conj eq_refl (conj eq_refl (conj eq_refl (conj Hp _)))). lia.
Qed.

Lemma scorecard_counts_are_outcomes_witness :
  exists sc,
    strategy_scorecard st_sample = Some sc /\
    sc_count_wins sc = count_outcome True_Win (st_analysis_df st_sample).
Proof.
  destruct (strategy_scorecard st_sample) as [sc|] eqn:E;
    [|vm_compute in E; discriminate].
  exists sc. split; [reflexivity|].
  exact (proj1 (scorecard_counts_are_outcomes st_sample sc E)).
Defined.

(** X18.  The scorecard stops with "No data available" exactly when no query of
    the merged frame has an impression in either phase; otherwise its
    population counts the queries that have one. *)
Theorem scorecard_population (st : list QueryComparisonRow) :
  (strategy_scorecard st = None <->
   forall r, In r st ->
     (Impressions_A r <= 0)%Z /\ (Impressions_B r <= 0)%Z) /\
  (forall sc, strategy_scorecard st = Some sc ->
     (0 < sc_total_queries sc)%nat /\
     sc_total_queries sc = length (List.filter st_population st)).
Proof.
  unfold strategy_scorecard, st_analysis_df. split.
  - destruct (Nat.eqb_spec (length (List.filter st_population st)) 0)
      as [E | E].
    + split; [intros _ | reflexivity]. intros r Hr.
      destruct (st_population r) eqn:Hp.
      * assert (Hin : In r (List.filter st_population st))
          by (apply filter_In; split; assumption).
        destruct (List.filter st_population st); [destruct Hin | discriminate].
      * unfold st_population in Hp. apply orb_false_iff in Hp as [H1 H2].
        apply Z.ltb_ge in H1, H2. split; assumption.
    + split; [discriminate|]. intros H. exfalso. apply E.
      rewrite (filter_none st_population st); [reflexivity|].
      intros r Hr. destruct (H r Hr) as [H1 H2]. unfold st_population.
      apply orb_false_iff. split; apply Z.ltb_ge; assumption.
  - intros sc.
    destruct (Nat.eqb_spec (length (List.filter st_population st)) 0)
      as [E | E]; [discriminate|].
    intros [= <-]. cbn [sc_total_queries]. split; [lia | reflexivity].
Qed.


Lemma risky_pos (df : list QueryComparisonRow) :
  Forall (fun x => 0 < x) (map Pos_Delta (risky_df df)).
Proof.
  apply List.Forall_forall. intros x Hx.
  apply in_map_iff in Hx as (r & <- & Hr).
  apply filter_In in Hr as [_ Hr]. unfold is_risky in Hr.
  apply andb_prop in Hr as [_ Hr]. apply Qgtb_gt in Hr. exact Hr.
Qed.

(** X19.  The totals of the magnitude check: the ranks gained are the sum of
    [|Pos_Delta|] over the True Wins and the ranks lost the sum of
    [Pos_Delta] over the Risk rows; neither total is negative, each is
    positive as soon as its frame has a row, and the net rank change is
    their difference. *)
Theorem rank_totals_are_sums (df : list QueryComparisonRow) :
  total_ranks_gained df
  == Qsum (map (fun r => Qabs (Pos_Delta r)) (true_wins_df df)) /\
  total_ranks_lost df == Qsum (map Pos_Delta (risky_df df)) /\
  0 <= total_ranks_gained df /\ 0 <= total_ranks_lost df /\
  (true_wins_df df <> [] -> 0 < total_ranks_gained df) /\
  (risky_df df <> [] -> 0 < total_ranks_lost df) /\
  net_rank_change df
  == Qsum (map (fun r => Qabs (Pos_Delta r)) (true_wins_df df))
     - Qsum (map Pos_Delta (risky_df df)).
Proof.
  assert (Hs : total_ranks_gained df
               == Qsum (map (fun r => Qabs (Pos_Delta r)) (true_wins_df df))).
  { unfold total_ranks_gained. pose proof (true_wins_nonpos df) as Hw.
    destruct (true_wins_df df) as [|r w] eqn:E; [reflexivity|].
    rewrite <- (map_map Pos_Delta Qabs).
    rewrite (Qsum_map_Qabs_nonpos _ Hw).
    apply Qabs_neg, Qsum_nonpos, Hw. }
  assert (Hl : total_ranks_lost df == Qsum (map Pos_Delta (risky_df df))).
  { unfold total_ranks_lost. destruct (risky_df df); reflexivity. }
  assert (Hwpos : Forall (fun x => 0 < x)
                    (map (fun r => Qabs (Pos_Delta r)) (true_wins_df df))).
  { apply List.Forall_forall. intros x Hx.
    apply in_map_iff in Hx as (r & <- & Hr).
    apply filter_In in Hr as [_ Hr]. unfold is_true_win in Hr.
    apply andb_prop in Hr as [Hr _]. apply Qltb_lt in Hr.
    rewrite Qabs_neg by lra. lra. }
  pose proof (risky_pos df) as Hrpos.
  assert (H0 : 0 <= total_ranks_gained df).
  { rewrite Hs. apply Qsum_nonneg. eapply List.Forall_impl; [|exact Hwpos].
    intros a Ha. cbn in Ha. lra. }
  assert (H1 : 0 <= total_ranks_lost df).
  { rewrite Hl. apply Qsum_nonneg. eapply List.Forall_impl; [|exact Hrpos].
    intros a Ha. cbn in Ha. lra. }
  refine (conj Hs (conj Hl (conj H0 (conj H1 (conj _ (conj _ _)))))).
  - intros Hne. rewrite Hs. apply Qsum_pos; [|exact Hwpos].
    destruct (true_wins_df df); [congruence | discriminate].
  - intros Hne. rewrite Hl. apply Qsum_pos; [|exact Hrpos].
    destruct (risky_df df); [congruence | discriminate].
  - unfold net_rank_change. rewrite Hs, Hl. reflexivity.
Qed.




(** ** Password check *)

(** X21.  Submitting the right password unlocks the app: the next run of
    [check_password] passes without drawing the form, the plaintext
    password is gone from the session state, every other key is untouched,
    and running the callback once more raises the [KeyError]. *)
Theorem login_with_right_password
  (app_password : string) (session_state : gmap string Auth.value) :
  exists st',
    Auth.text_input_change app_password app_password session_state = Some st' /\
    Auth.passed (Auth.check_password st') = true /\
    Auth.form_shown (Auth.check_password st') = false /\
    st' !! "password" = None /\
    (forall k, k <> "password" -> k <> "password_correct" ->
               st' !! k = session_state !! k) /\
    Auth.password_entered app_password st' = None.
Proof.
  unfold Auth.text_input_change, Auth.password_entered.
  rewrite lookup_insert_eq, bool_decide_eq_true_2 by reflexivity.
  eexists. split; [reflexivity|].
  assert (Hc : delete "password"
                 (<["password_correct" := Auth.VBool true]>
                    (<["password" := Auth.VStr app_password]> session_state))
               !! "password_correct" = Some (Auth.VBool true)).
  { rewrite lookup_delete_ne by discriminate. apply lookup_insert_eq. }
  unfold Auth.check_password. rewrite Hc. cbn.
  rewrite lookup_delete_eq.
  repeat split; try reflexivity.
  intros k H1 H2.
  rewrite lookup_delete_ne, !lookup_insert_ne by congruence. reflexivity.
Qed.

(** X22.  Submitting a wrong password keeps the app locked: the next run does not
    pass and shows the form with the error message; the typed text stays in
    the session state. *)
Theorem login_with_wrong_password
  (app_password typed : string) (session_state : gmap string Auth.value) :
  typed <> app_password ->
  exists st',
    Auth.text_input_change app_password typed session_state = Some st' /\
    Auth.passed (Auth.check_password st') = false /\
    Auth.form_shown (Auth.check_password st') = true /\
    Auth.error_shown (Auth.check_password st') = true /\
    st' !! "password" = Some (Auth.VStr typed).
Proof.
  intros Hne. unfold Auth.text_input_change, Auth.password_entered.
  rewrite lookup_insert_eq, bool_decide_eq_false_2 by congruence.
  eexists. split; [reflexivity|].
  unfold Auth.check_password. rewrite lookup_insert_eq. cbn.
  rewrite lookup_insert_ne, lookup_insert_eq by discriminate.
  repeat split; reflexivity.
Qed.

Lemma login_with_wrong_password_witness :
  exists st',
    Auth.text_input_change "s3cret" "guess" ∅ = Some st' /\
    Auth.passed (Auth.check_password st') = false.
Proof.
  destruct (login_with_wrong_password "s3cret" "guess" ∅)
    as (st' & H1 & H2 & _).
  - discriminate.
  - exists st'. split; assumption.
Defined.

(** X23.  The callback lets a session through only with the configured password:
    if a session that does not pass the check passes it after the callback
    ran, the text stored under ["password"] was the configured password.
    A fresh session does not pass and sees no error message. *)
Theorem callback_needs_the_password
  (app_password : string) (st st' : gmap string Auth.value) :
  Auth.passed (Auth.check_password st) = false ->
  Auth.password_entered app_password st = Some st' ->
  Auth.passed (Auth.check_password st') = true ->
  st !! "password" = Some (Auth.VStr app_password) /\
  Auth.check_password ∅
  = {| Auth.passed := false; Auth.form_shown := true;
       Auth.error_shown := false |}.
Proof.
  intros Hfail Hcb Hpass. split; [|reflexivity].
  unfold Auth.password_entered in Hcb.
  destruct (st !! "password") as [v|] eqn:Ev; [|discriminate].
  case_bool_decide as E; [congruence|].
  injection Hcb as <-. exfalso.
  unfold Auth.check_password in Hpass.
  rewrite lookup_insert_eq in Hpass. cbn in Hpass. discriminate.
Qed.

Lemma callback_needs_the_password_witness :
  (<["password" := Auth.VStr "s3cret"]> ∅ : gmap string Auth.value)
    !! "password" = Some (Auth.VStr "s3cret").
Proof.
  refine (proj1 (callback_needs_the_password "s3cret"
            (<["password" := Auth.VStr "s3cret"]> ∅)
            (delete "password"
               (<["password_correct" := Auth.VBool true]>
                  (<["password" := Auth.VStr "s3cret"]> ∅))) _ _ _)).
  - reflexivity.
  - reflexivity.
  - vm_compute. reflexivity.
Defined.

(** ** Chunked upload *)

Lemma firstn_plus (A : Type) (a b : nat) (l : list A) :
  firstn (a + b) l = firstn a l ++ firstn b (skipn a l).
Proof.
  revert l. induction a as [|a IH]; intros l; [reflexivity|].
  destruct l as [|x l]; [cbn; now rewrite firstn_nil|].
  cbn [Nat.add firstn skipn app]. f_equal. apply IH.
Qed.

Lemma progress_value_bounds (i chunk_size total : nat) :
  (0 < chunk_size)%nat -> (0 < total)%nat ->
  0 < Upload.progress_value i chunk_size total <= 1.
Proof.
  intros Hc Ht. unfold Upload.progress_value.
  assert (Hq : 0 < Qnat (i + chunk_size) / Qnat total).
  { apply Qlt_shift_div_l; [apply Qnat_pos, Ht|].
    rewrite Qmult_0_l. apply Qnat_pos. lia. }
  destruct (Q.min_spec (Qnat (i + chunk_size) / Qnat total) 1)
    as [[H1 H2] | [H1 H2]]; rewrite H2; lra.
Qed.

Section BatchInsertProofs.

Context {R : Type}.
Variable insert_ok : nat -> list R -> bool.
Variable records : list R.
Variable chunk_size : nat.
Hypothesis chunk_size_pos : (0 < chunk_size)%nat.

(** The loop from row [start] on, with fuel for the rows that are left. *)
Lemma insert_chunks_from (fuel start : nat) :
  (length records <= start + fuel)%nat ->
  (start < length records + chunk_size)%nat ->
  let b := Upload.insert_chunks insert_ok records chunk_size
             (Upload.range_from fuel start (length records) chunk_size) in
  let k := length (Upload.inserted b) in
  Forall (fun ch => (1 <= length ch <= chunk_size)%nat) (Upload.inserted b) /\
  length (Upload.progress b) = k /\
  Forall (fun p => 0 < p <= 1) (Upload.progress b) /\
  (Upload.returned b = true ->
   concat (Upload.inserted b) = skipn start records /\
   (length records <= start + chunk_size * k)%nat /\
   (start + chunk_size * k < length records + chunk_size)%nat) /\
  (Upload.returned b = false ->
   (start + chunk_size * k < length records)%nat /\
   concat (Upload.inserted b) = firstn (chunk_size * k) (skipn start records) /\
   insert_ok (start + chunk_size * k)
     (firstn chunk_size (skipn (start + chunk_size * k) records)) = false).
Proof.
  revert start. induction fuel as [|fuel IH]; intros start Hfuel Hstart.
  - cbn. rewrite Nat.mul_0_r, Nat.add_0_r.
    repeat split; try constructor; try discriminate; try lia.
    symmetry. apply skipn_all2. lia.
  - cbn [Upload.range_from].
    destruct (Nat.ltb_spec start (length records)) as [Hlt | Hge].
    + cbn [Upload.insert_chunks].
      destruct (insert_ok start (firstn chunk_size (skipn start records)))
        eqn:Hok.
      * specialize (IH (start + chunk_size)%nat ltac:(lia) ltac:(lia)).
        cbv zeta in IH.
        set (b := Upload.insert_chunks insert_ok records chunk_size _) in *.
        destruct IH as (Hsz & Hlen & Hpr & Htrue & Hfalse).
        cbn [Upload.returned Upload.inserted Upload.progress length concat].
        assert (Hchunk : (1 <= length (firstn chunk_size (skipn start records))
                          <= chunk_size)%nat).
        { rewrite length_firstn, length_skipn. lia. }
        refine (conj _ (conj _ (conj _ (conj _ _)))).
        -- constructor; assumption.
        -- rewrite Hlen. reflexivity.
        -- constructor; [|exact Hpr].
           apply progress_value_bounds; lia.
        -- intros Hr. destruct (Htrue Hr) as (Hcat & H1 & H2).
           split; [|lia].
           rewrite Hcat, (Nat.add_comm start chunk_size), <- skipn_skipn.
           apply firstn_skipn.
        -- intros Hr. destruct (Hfalse Hr) as (H1 & Hcat & Hbad).
           replace (start + chunk_size * S (length (Upload.inserted b)))%nat
             with (start + chunk_size
                   + chunk_size * length (Upload.inserted b))%nat by lia.
           split; [exact H1|]. split; [|exact Hbad].
           rewrite Hcat.
           replace (chunk_size * S (length (Upload.inserted b)))%nat
             with (chunk_size + chunk_size * length (Upload.inserted b))%nat
             by lia.
           rewrite firstn_plus, skipn_skipn.
           rewrite (Nat.add_comm chunk_size start). reflexivity.
      * cbn [Upload.returned Upload.inserted Upload.progress length concat].
        rewrite Nat.mul_0_r, Nat.add_0_r.
        repeat split; try constructor; try discriminate; try lia.
        exact Hok.
    + cbn. rewrite Nat.mul_0_r, Nat.add_0_r.
      repeat split; try constructor; try discriminate; try lia.
      symmetry. apply skipn_all2. lia.
Qed.

End BatchInsertProofs.

Lemma insert_chunks_all_accepted (R : Type) (insert_ok : nat -> list R -> bool)
  (records : list R) (chunk_size : nat) (starts : list nat) :
  (forall i ch, insert_ok i ch = true) ->
  Upload.returned (Upload.insert_chunks insert_ok records chunk_size starts)
  = true.
Proof.
  intros Hok. induction starts as [|i rest IH]; [reflexivity|].
  cbn [Upload.insert_chunks]. rewrite Hok. exact IH.
Qed.

(** X24.  [batch_insert] with a positive chunk size.  When it returns [True] every
    row has been handed to the table exactly once and in order, in
    [ceil(n / chunk_size)] chunks of 1 to [chunk_size] rows, and every value
    given to the progress bar lies in (0, 1]; it returns [True] whenever no
    insert raises. *)
Theorem batch_insert_success (R : Type) (insert_ok : nat -> list R -> bool)
  (records : list R) (chunk_size : nat) :
  (0 < chunk_size)%nat ->
  exists b,
    Upload.batch_insert insert_ok records chunk_size = Some b /\
    ((forall i ch, insert_ok i ch = true) -> Upload.returned b = true) /\
    Forall (fun p => 0 < p <= 1) (Upload.progress b) /\
    (Upload.returned b = true ->
     concat (Upload.inserted b) = records /\
     Forall (fun ch => (1 <= length ch <= chunk_size)%nat)
            (Upload.inserted b) /\
     (length records <= chunk_size * length (Upload.inserted b)
      < length records + chunk_size)%nat).
Proof.
  intros Hc. unfold Upload.batch_insert, Upload.range.
  destruct (Nat.eqb_spec chunk_size 0) as [|_]; [lia|].
  eexists. split; [reflexivity|].
  pose proof (insert_chunks_from insert_ok records chunk_size Hc
                (length records) 0 ltac:(lia) ltac:(lia)) as H.
  cbv zeta in H. destruct H as (Hsz & _ & Hpr & Htrue & _).
  split; [apply insert_chunks_all_accepted|].
  split; [exact Hpr|].
  intros Hr. destruct (Htrue Hr) as (Hcat & H1 & H2).
  rewrite skipn_0 in Hcat. split; [exact Hcat|]. split; [exact Hsz | lia].
Qed.

Lemma batch_insert_success_witness :
  exists b,
    Upload.batch_insert accept_all [1; 2; 3; 4; 5]%nat 2 = Some b /\
    concat (Upload.inserted b) = [1; 2; 3; 4; 5]%nat /\
    length (Upload.inserted b) = 3%nat.
Proof.
  destruct (batch_insert_success nat accept_all [1; 2; 3; 4; 5]%nat 2)
    as (b & Hb & Hall & _ & Htrue); [lia|].
  exists b. split; [exact Hb|].
  destruct (Htrue (Hall (fun _ _ => eq_refl))) as (Hcat & _ & Hk).
  split; [exact Hcat|]. cbn [length] in Hk. lia.
Defined.

(** X25.  [batch_insert] stops at the first insert that raises and returns
    [False]: the rows before the failing chunk stay inserted, they are the
    first [chunk_size x k] rows for the [k] chunks that went through, and no
    chunk after the failing one is tried. *)
Theorem batch_insert_failure (R : Type) (insert_ok : nat -> list R -> bool)
  (records : list R) (chunk_size : nat) (b : Upload.Batch R) :
  Upload.batch_insert insert_ok records chunk_size = Some b ->
  Upload.returned b = false ->
  let i := (chunk_size * length (Upload.inserted b))%nat in
  (i < length records)%nat /\
  concat (Upload.inserted b) = firstn i records /\
  insert_ok i (firstn chunk_size (skipn i records)) = false /\
  Forall (fun ch => length ch = chunk_size) (Upload.inserted b).
Proof.
  unfold Upload.batch_insert, Upload.range.
  destruct (Nat.eqb_spec chunk_size 0) as [|Hc]; [discriminate|].
  intros [= <-] Hr.
  pose proof (insert_chunks_from insert_ok records chunk_size
                ltac:(lia) (length records) 0 ltac:(lia) ltac:(lia)) as H.
  cbv zeta in H. destruct H as (Hsz & _ & _ & _ & Hfalse).
  destruct (Hfalse Hr) as (H1 & Hcat & Hbad).
  rewrite skipn_0 in Hcat. cbn [Nat.add] in *. cbv zeta.
  set (b := Upload.insert_chunks insert_ok records chunk_size _) in *.
  refine (conj H1 (conj Hcat (conj Hbad _))).
  (* every chunk is full: the sizes are at most [chunk_size] and add up to
     [chunk_size] times their number *)
  assert (Hlen : length (concat (Upload.inserted b))
                 = (chunk_size * length (Upload.inserted b))%nat).
  { rewrite Hcat, length_firstn. lia. }
  clear -Hsz Hlen. revert Hlen.
  induction Hsz as [|ch l Hch Hsz IH]; intros Hlen; [constructor|].
  cbn [concat length] in Hlen. rewrite length_app in Hlen.
  assert (Hle : (length (concat l) <= chunk_size * length l)%nat).
  { clear -Hsz. induction Hsz as [|c l Hc _ IH]; [cbn; lia|].
    cbn [concat length]. rewrite length_app. lia. }
  assert (length ch = chunk_size) by lia.
  constructor; [assumption|]. apply IH. lia.
Qed.

Lemma batch_insert_failure_witness :
  exists b,
    Upload.batch_insert (fail_from 4) [1; 2; 3; 4; 5; 6; 7]%nat 2 = Some b /\
    concat (Upload.inserted b) = [1; 2; 3; 4]%nat.
Proof.
  eexists. split; [reflexivity|].
  refine (proj1 (proj2 (batch_insert_failure nat (fail_from 4)
                          [1; 2; 3; 4; 5; 6; 7]%nat 2 _ eq_refl _))).
  reflexivity.
Defined.

(** ** Validation of an upload *)

Lemma unique_str_In (l : list string) (x : string) :
  In x (Upload.unique_str l) <-> In x l.
Proof.
  induction l as [|y l IH]; [reflexivity|].
  cbn [Upload.unique_str In].
  rewrite filter_In, IH, negb_true_iff, bool_decide_eq_false.
  destruct (decide (y = x)); intuition congruence.
Qed.

Lemma unique_str_NoDup (l : list string) : List.NoDup (Upload.unique_str l).
Proof.
  induction l as [|y l IH]; cbn [Upload.unique_str]; constructor.
  - rewrite filter_In, negb_true_iff, bool_decide_eq_false.
    intros [_ H]. congruence.
  - apply List.NoDup_filter, IH.
Qed.

Lemma resolve_domains_some (resolve : string -> option Z)
  (l : list string) (m : gmap string Z) (calls : list string) m' calls' :
  Upload.resolve_domains resolve l m calls = (Some m', calls') ->
  calls' = rev (List.filter (fun d => negb (Upload.is_blank d)) l) ++ calls /\
  (forall d, In d l -> Upload.is_blank d = false ->
     exists id, resolve d = Some id /\ id <> 0%Z /\ m' !! d = Some id) /\
  (forall d, ~ In d l \/ Upload.is_blank d = true -> m' !! d = m !! d).
Proof.
  revert m calls. induction l as [|dom rest IH]; intros m calls.
  - cbn. intros [= <- <-].
    split; [reflexivity|]. split; [intros d []|reflexivity].
  - cbn [Upload.resolve_domains List.filter].
    destruct (Upload.is_blank dom) eqn:Hb; cbn [negb].
    + intros H. destruct (IH _ _ H) as (Hc & Hres & Hkeep).
      split; [exact Hc|]. split.
      * intros d [<- | Hd] Hnb; [congruence | apply Hres; assumption].
      * intros d Hd. apply Hkeep. destruct Hd as [Hd | Hd]; [left | right].
        -- intros Hin. apply Hd. now right.
        -- exact Hd.
    + destruct (resolve dom) as [id|] eqn:Hr; [|discriminate].
      destruct (Z.eqb_spec id 0) as [|Hid]; [discriminate|].
      intros H. destruct (IH _ _ H) as (Hc & Hres & Hkeep).
      split; [|split].
      * rewrite Hc. cbn [rev]. rewrite <- app_assoc. reflexivity.
      * intros d [<- | Hd] Hnb; [|apply Hres; assumption].
        destruct (decide (dom ∈ rest)) as [Hin | Hnin];
          rewrite list_elem_of_In in *.
        -- apply Hres; assumption.
        -- exists id. split; [exact Hr|]. split; [exact Hid|].
           rewrite (Hkeep dom (or_introl Hnin)). apply lookup_insert_eq.
      * intros d Hd.
        assert (Hne : dom <> d).
        { intros <-. destruct Hd as [Hd | Hd]; [apply Hd; now left|].
          congruence. }
        rewrite (Hkeep d); [apply lookup_insert_ne, Hne|].
        destruct Hd as [Hd | Hd];
          [left; intros Hin; apply Hd; now right | right; exact Hd].
Qed.

Lemma filter_all (A : Type) (f : A -> bool) (l : list A) :
  (forall x, In x l -> f x = true) -> List.filter f l = l.
Proof.
  induction l as [|x l IH]; intros H; [reflexivity|].
  cbn. rewrite (H x (or_introl eq_refl)). f_equal. apply IH.
  intros y Hy. apply H. now right.
Qed.

(** X26.  When the script offers a frame for upload, the CSV has a domain column
    and a [Phase_id] column, every domain cell is a non-blank name that
    [get_or_create_domain_id] resolved to a non-zero id (the ids of the new
    [Domain_id] column, row by row), every name was resolved once, in order
    of first appearance, the frame has exactly the columns of the target
    table, all of them present in the CSV but [Domain_id], and for the GSC
    table the dates parsed. *)
Theorem validate_ready (table_option : Upload.Table)
  (columns domain_cells : list string) (resolve : string -> option Z)
  (dates_parse : bool) (domain_ids : list Z) (out_columns calls : list string) :
  Upload.validate table_option columns domain_cells resolve dates_parse
  = (Upload.Ready domain_ids out_columns, calls) ->
  (exists c, Upload.domain_col_name columns = Some c /\ In c columns /\
             In c Upload.possible_domain_headers) /\
  In "Phase_id" columns /\
  Forall2 (fun d id => Upload.is_blank d = false /\ resolve d = Some id /\
                       id <> 0%Z) domain_cells domain_ids /\
  calls = Upload.unique_str domain_cells /\
  out_columns = Upload.target_cols table_option /\
  (forall c, In c out_columns -> c <> "Domain_id" -> In c columns) /\
  (table_option = Upload.GSC -> dates_parse = true).
Proof.
  unfold Upload.validate.
  destruct (Upload.domain_col_name columns) as [c|] eqn:Ec; [|discriminate].
  case_bool_decide as Hphase; cbn [negb]; [|discriminate].
  destruct (Upload.resolve_domains resolve (Upload.unique_str domain_cells)
              ∅ []) as [[m'|] calls0] eqn:Er; [|discriminate].
  destruct (resolve_domains_some _ _ _ _ _ _ Er) as (Hcalls & Hres & Hkeep).
  destruct (existsb _ _) eqn:Hex; [discriminate|].
  assert (Hcells : forall d, In d domain_cells ->
            Upload.is_blank d = false /\
            exists id, resolve d = Some id /\ id <> 0%Z /\ m' !! d = Some id).
  { intros d Hd.
    assert (Hsome : is_Some (m' !! d)).
    { destruct (m' !! d) as [id|] eqn:E; [eauto|]. exfalso.
      assert (Ht : existsb (fun o : option Z => negb (bool_decide (is_Some o)))
                     (map (fun d => m' !! d) domain_cells) = true).
      { apply existsb_exists. exists None. split.
        - apply in_map_iff. exists d. split; assumption.
        - rewrite bool_decide_eq_false_2; [reflexivity|].
          intros [? ?]. discriminate. }
      congruence. }
    destruct (Upload.is_blank d) eqn:Hb.
    - rewrite (Hkeep d (or_intror Hb)), lookup_empty in Hsome.
      destruct Hsome as [? ?]. discriminate.
    - split; [reflexivity|]. apply Hres; [|exact Hb].
      apply unique_str_In, Hd. }
  set (columns' := if bool_decide ("Domain_id" ∈ columns) then columns
                   else columns ++ ["Domain_id"]).
  assert (Hcols' : forall x, In x columns' -> x <> "Domain_id" -> In x columns).
  { intros x Hx Hne. unfold columns' in Hx. case_bool_decide; [exact Hx|].
    apply in_app_or in Hx as [Hx | [Hx | []]]; [exact Hx | congruence]. }
  destruct (match table_option with
            | Upload.GSC => negb (bool_decide ("Date" ∈ columns'))
            | Upload.Top_Queries_table => false
            end) eqn:Hdate; [discriminate|].
  destruct (match table_option with
            | Upload.GSC => negb dates_parse
            | Upload.Top_Queries_table => false
            end) eqn:Hparse; [discriminate|].
  destruct (List.filter _ (Upload.target_cols table_option)) eqn:Hmiss;
    [|discriminate].
  intros [= <- <- <-].
  refine (conj _ (conj _ (conj _ (conj _ (conj eq_refl (conj _ _)))))).
  - exists c. split; [reflexivity|].
    apply find_some in Ec as [Hin Hhd]. split; [exact Hin|].
    apply bool_decide_eq_true in Hhd. apply list_elem_of_In, Hhd.
  - apply list_elem_of_In, Hphase.
  - clear -Hcells. induction domain_cells as [|d l IH]; [constructor|].
    destruct (Hcells d (or_introl eq_refl)) as (Hb & id & Hr & Hid & Hm).
    cbn [map omap]. rewrite Hm. cbn. constructor; [auto|].
    apply IH. intros x Hx. apply Hcells. now right.
  - rewrite Hcalls, app_nil_r, rev_involutive. apply filter_all.
    intros d Hd. apply (proj1 (unique_str_In _ _)) in Hd.
    destruct (Hcells d Hd) as [-> _]. reflexivity.
  - intros x Hx Hne. apply Hcols'; [|exact Hne].
    destruct (decide (x ∈ columns')) as [Hin | Hnin];
      [apply list_elem_of_In, Hin|]. exfalso.
    assert (Hf : In x (List.filter
                         (fun c => negb (bool_decide (c ∈ columns')))
                         (Upload.target_cols table_option))).
    { apply filter_In. split; [exact Hx|].
      rewrite bool_decide_eq_false_2 by exact Hnin. reflexivity. }
    rewrite Hmiss in Hf. destruct Hf.
  - intros ->. destruct dates_parse; [reflexivity | discriminate].
Qed.

Lemma validate_ready_witness :
  Forall2 (fun d id => Upload.is_blank d = false /\
                       resolve_sample d = Some id /\ id <> 0%Z)
    ["a.com"; "b.org"; "a.com"] [1; 2; 1]%Z.
Proof.
  refine (proj1 (proj2 (proj2
    (validate_ready Upload.Top_Queries_table
       ["Domain"; "Top_Queries"; "Clicks"; "Impressions"; "Position";
        "Phase_id"]
       ["a.com"; "b.org"; "a.com"] resolve_sample false
       [1; 2; 1]%Z (Upload.target_cols Upload.Top_Queries_table)
       ["a.com"; "b.org"] _)))).
  vm_compute. reflexivity.
Defined.

(** X27.  A blank domain cell (empty, or the text of a missing value) rejects the
    whole file; the rejection comes after every named domain of the file has
    been resolved, so new domains are created although no row is
    uploaded. *)
Theorem validate_blank_cells (table_option : Upload.Table)
  (columns domain_cells : list string) (resolve : string -> option Z)
  (dates_parse : bool) (calls : list string) :
  Upload.validate table_option columns domain_cells resolve dates_parse
  = (Upload.Empty_domain_cells, calls) ->
  (exists d, In d domain_cells /\ Upload.is_blank d = true) /\
  calls = List.filter (fun d => negb (Upload.is_blank d))
            (Upload.unique_str domain_cells) /\
  (forall d, In d domain_cells -> Upload.is_blank d = false ->
     In d calls /\ exists id, resolve d = Some id /\ id <> 0%Z).
Proof.
  unfold Upload.validate.
  destruct (Upload.domain_col_name columns) as [c|] eqn:Ec; [|discriminate].
  case_bool_decide as Hphase; cbn [negb]; [|discriminate].
  destruct (Upload.resolve_domains resolve (Upload.unique_str domain_cells)
              ∅ []) as [[m'|] calls0] eqn:Er; [|discriminate].
  destruct (resolve_domains_some _ _ _ _ _ _ Er) as (Hcalls & Hres & Hkeep).
  destruct (existsb _ _) eqn:Hex.
  - intros [= <-]. rewrite Hcalls, app_nil_r, rev_involutive.
    split; [|split; [reflexivity|]].
    + apply existsb_exists in Hex as (o & Ho & Hnone).
      apply in_map_iff in Ho as (d & <- & Hd). exists d. split; [exact Hd|].
      destruct (Upload.is_blank d) eqn:Hb; [reflexivity|]. exfalso.
      destruct (Hres d (proj2 (unique_str_In _ _) Hd) Hb)
        as (id & _ & _ & Hm).
      rewrite Hm, bool_decide_eq_true_2 in Hnone by eauto. discriminate.
    + intros d Hd Hb. split.
      * apply filter_In. split; [apply unique_str_In, Hd|].
        rewrite Hb. reflexivity.
      * destruct (Hres d (proj2 (unique_str_In _ _) Hd) Hb)
          as (id & Hr & Hid & _). eauto.
  - cbv zeta.
    destruct (match table_option with
              | Upload.GSC => negb (bool_decide _)
              | Upload.Top_Queries_table => false end);
      [discriminate|].
    destruct (match table_option with
              | Upload.GSC => negb dates_parse
              | Upload.Top_Queries_table => false end);
      [discriminate|].
    destruct (List.filter _ (Upload.target_cols table_option));
      discriminate.
Qed.

Lemma validate_blank_cells_witness :
  exists d, In d ["a.com"; "nan"; "b.org"] /\ Upload.is_blank d = true.
Proof.
  refine (proj1 (validate_blank_cells Upload.Top_Queries_table
            ["Domain"; "Phase_id"] ["a.com"; "nan"; "b.org"] resolve_sample
            false ["a.com"; "b.org"] _)).
  vm_compute. reflexivity.
Defined.
